(** * dictation.py: the toggle controller, recorder, transcriber and injector

    A shallow embedding of [src/dictation.py].  The module-level variables
    ([is_recording], [audio_chunks], [stream]) and the parts of the outside
    world the program touches (clipboard, temp files, the trace of external
    calls) form one record [World]; every Python function is a computation in
    a state-and-exception monad over it.  What the outside world answers to a
    call (does the device open, what does the API return, does [pbcopy]
    succeed) is an explicit argument of the function that makes the call. *)

From Stdlib Require Import ZArith NArith QArith List String Ascii Bool Lia.
From stdpp Require Import base gmap list.
Import ListNotations.

Local Open Scope Z_scope.

(** ** Python text *)

(** A Python [str] is a sequence of Unicode code points. *)
Abbreviation str := (list N).

(** An ASCII literal of the source as a [str]. *)
Definition lit (s : string) : str :=
  List.map N_of_ascii (list_ascii_of_string s).

(** [Py_UNICODE_ISSPACE], the test behind [str.strip()] without argument. *)
Definition isspace (c : N) : bool :=
  ((0x09 <=? c) && (c <=? 0x0D) || (0x1C <=? c) && (c <=? 0x1F)
   || (c =? 0x20) || (c =? 0x85) || (c =? 0xA0) || (c =? 0x1680)
   || (0x2000 <=? c) && (c <=? 0x200A)
   || (c =? 0x2028) || (c =? 0x2029) || (c =? 0x202F) || (c =? 0x205F)
   || (c =? 0x3000))%N.

Fixpoint lstrip (s : str) : str :=
  match s with
  | c :: s' => if isspace c then lstrip s' else s
  | [] => []
  end.

Definition rstrip (s : str) : str := rev (lstrip (rev s)).

(** [s.strip()] *)
Definition strip (s : str) : str := rstrip (lstrip s).

(** Truth value of a sequence: [if text:], [if not audio_chunks:]. *)
Definition truthy {A} (l : list A) : bool :=
  match l with [] => false | _ :: _ => true end.

(** ** Constants of the module *)

Definition SAMPLE_RATE : Z := 16000.
Definition MODEL : str := lit "gpt-4o-mini-transcribe".
Definition HOTKEY : str := lit "<cmd>+<shift>+d".

(** ** Data *)

(** A block of mono int16 frames, shape [(frames, 1)]: its samples in order.
    [len] of it is the number of frames. *)
Abbreviation ndarray := (list Z).

(** [np.concatenate(chunks, axis=0)]: raises [ValueError] on an empty
    sequence of arrays, which is [None] here. *)
Definition np_concatenate (chunks : list ndarray) : option ndarray :=
  match chunks with
  | [] => None
  | _ :: _ => Some (List.concat chunks)
  end.

(** What [wavfile.write(path, rate, data)] stores: the container is kept
    abstract, a file is its sample rate and its samples. *)
Record wav := Wav { wav_rate : Z; wav_data : ndarray }.

(** The object [sd.InputStream(...)] returns. *)
Record InputStream := MkStream {
  samplerate : Z;
  channels : Z;
  dtype : str;
  active : bool
}.

Inductive exn :=
| PortAudioError (msg : str)       (* sounddevice: no device, no permission *)
| ValueError (msg : str)           (* numpy *)
| APIError (msg : str)             (* openai client: network, API *)
| AttributeError (msg : str)
| FileNotFoundError (path : str)   (* open, os.remove *)
| SubprocessError (msg : str)      (* subprocess: TimeoutExpired, CalledProcessError *)
| InjectionError (msg : str).      (* pynput *)

(** [str(e)], as the f-strings print it. *)
Definition exn_str (e : exn) : str :=
  match e with
  | PortAudioError m | ValueError m | APIError m | AttributeError m
  | FileNotFoundError m | SubprocessError m | InjectionError m => m
  end.

Inductive Fd := Stdout | Stderr.

Inductive Key := KeyCmd | KeyChar (c : N).

(** The calls the program makes to the outside world, in the order made. *)
Inductive Event :=
| EvSound (name : str)                       (* play_sound *)
| EvNotify (title message : str)             (* osascript *)
| EvPrint (fd : Fd) (line : str)
| EvStreamOpen (s : InputStream)
| EvStreamStart
| EvStreamStop
| EvStreamClose
| EvThreadStart                              (* threading.Thread(...).start() *)
| EvWavWrite (path : str) (rate : Z) (data : ndarray)
| EvApiRequest (model : str) (file : wav) (response_format : str)
| EvRemove (path : str)
| EvPbpaste
| EvPbcopy (input : str)
| EvKeyPress (k : Key)
| EvKeyRelease (k : Key).

(** The response of [client.audio.transcriptions.create]: plain text, or an
    object with a [.text] field. *)
Inductive Response :=
| RespStr (s : str)
| RespObj (text : str).

(** Module state and outside world. *)
Record World := MkWorld {
  is_recording : bool;
  audio_chunks : list ndarray;
  stream : option InputStream;
  threads : nat;                 (* background threads started, not yet run *)
  clipboard : str;               (* plain text on the pasteboard *)
  files : gmap str wav;
  trace : list Event
}.

Definition with_is_recording (b : bool) (w : World) : World :=
  MkWorld b (audio_chunks w) (stream w) (threads w) (clipboard w) (files w) (trace w).
Definition with_audio_chunks (c : list ndarray) (w : World) : World :=
  MkWorld (is_recording w) c (stream w) (threads w) (clipboard w) (files w) (trace w).
Definition with_stream (s : option InputStream) (w : World) : World :=
  MkWorld (is_recording w) (audio_chunks w) s (threads w) (clipboard w) (files w) (trace w).
Definition with_threads (n : nat) (w : World) : World :=
  MkWorld (is_recording w) (audio_chunks w) (stream w) n (clipboard w) (files w) (trace w).
Definition with_clipboard (c : str) (w : World) : World :=
  MkWorld (is_recording w) (audio_chunks w) (stream w) (threads w) c (files w) (trace w).
Definition with_files (f : gmap str wav) (w : World) : World :=
  MkWorld (is_recording w) (audio_chunks w) (stream w) (threads w) (clipboard w) f (trace w).
Definition emit (e : Event) (w : World) : World :=
  MkWorld (is_recording w) (audio_chunks w) (stream w) (threads w) (clipboard w) (files w)
          (trace w ++ [e]).

(** The state at import time: [is_recording = False], [audio_chunks = []],
    [stream = None]. *)
Definition initial (clip : str) (fs : gmap str wav) : World :=
  MkWorld false [] None 0 clip fs [].

(** ** The monad of module functions *)

Inductive Result (A : Type) :=
| Ret (a : A)
| Raise (e : exn).
Arguments Ret {A} a.
Arguments Raise {A} e.

Definition M (A : Type) : Type := World -> Result A * World.

Definition ret {A} (a : A) : M A := fun w => (Ret a, w).
Definition raise {A} (e : exn) : M A := fun w => (Raise e, w).
Definition bind {A B} (m : M A) (k : A -> M B) : M B :=
  fun w => match m w with
           | (Ret a, w') => k a w'
           | (Raise e, w') => (Raise e, w')
           end.
(** [try: m  except Exception as e: h e] *)
Definition try_except {A} (m : M A) (h : exn -> M A) : M A :=
  fun w => match m w with
           | (Ret a, w') => (Ret a, w')
           | (Raise e, w') => h e w'
           end.
Definition get {A} (f : World -> A) : M A := fun w => (Ret (f w), w).
Definition modify (f : World -> World) : M unit := fun w => (Ret tt, f w).

Declare Scope py_scope.
Delimit Scope py_scope with py.
Notation "x <- m ;; k" := (bind m (fun x => k))
  (at level 100, m at next level, k at level 200, right associativity) : py_scope.
Notation "m ;; k" := (bind m (fun _ => k))
  (at level 100, k at level 200, right associativity) : py_scope.
Local Open Scope py_scope.

Definition print (fd : Fd) (line : str) : M unit := modify (emit (EvPrint fd line)).

(** ** Audio and visual feedback *)

(** [play_sound(name)]: best effort, nothing comes back to the caller. *)
Definition play_sound (name : str) : M unit := modify (emit (EvSound name)).

(** [notify(title, message)]: starts [osascript] and does not wait for it. *)
Definition notify (title message : str) : M unit :=
  modify (emit (EvNotify title message)).

(** ** Recording *)

(** What the audio device does when [start_recording] asks for it. *)
Inductive DeviceOutcome :=
| DevOk
| DevOpenFails (e : exn)      (* sd.InputStream(...) raises *)
| DevStartFails (e : exn).    (* stream.start() raises *)

(** [_audio_callback(indata, frames, time_info, status)]; [status] is [Some]
    of its printed form when a flag is set. *)
Definition _audio_callback (indata : ndarray) (status : option str) : M unit :=
  (match status with
   | Some s => print Stderr (lit "sounddevice status: " ++ s)
   | None => ret tt
   end) ;;
  chunks <- get audio_chunks ;;
  modify (with_audio_chunks (chunks ++ [indata])).

(** [sd.InputStream(samplerate=..., channels=..., dtype=..., callback=...)] *)
Definition sd_InputStream (dev : DeviceOutcome) (rate chans : Z) (dt : str)
  : M InputStream :=
  match dev with
  | DevOpenFails e => raise e
  | _ => let s := MkStream rate chans dt false in
         modify (emit (EvStreamOpen s)) ;; ret s
  end.

(** [stream.start()] on the object the global [stream] refers to. *)
Definition stream_start (dev : DeviceOutcome) : M unit :=
  match dev with
  | DevStartFails e => raise e
  | _ => s <- get stream ;;
         match s with
         | Some s => modify (with_stream (Some (MkStream (samplerate s) (channels s) (dtype s) true))) ;;
                     modify (emit EvStreamStart)
         | None => raise (AttributeError (lit "'NoneType' object has no attribute 'start'"))
         end
  end.

Definition start_recording (dev : DeviceOutcome) : M unit :=
  modify (with_audio_chunks []) ;;
  play_sound (lit "Bottle") ;;
  notify (lit "Dictation")
         ([0x1F399; 0x20]%N ++ lit "Recording" ++ [0x2026]%N ++ lit " press Cmd+Shift+D to stop") ;;
  print Stdout
        ([0x1F399; 0x20; 0x20]%N ++ lit "Recording" ++ [0x2026]%N ++ lit " press Cmd+Shift+D to stop") ;;
  (* time.sleep(0.8) *)
  s <- sd_InputStream dev SAMPLE_RATE 1 (lit "int16") ;;
  modify (with_stream (Some s)) ;;
  stream_start dev.

Definition stop_recording : M unit :=
  s <- get stream ;;
  (match s with
   | Some s =>
       (* stream.stop() *)
       modify (with_stream (Some (MkStream (samplerate s) (channels s) (dtype s) false))) ;;
       modify (emit EvStreamStop) ;;
       (* stream.close() *)
       modify (emit EvStreamClose) ;;
       modify (with_stream None)
   | None => ret tt
   end) ;;
  play_sound (lit "Bottle") ;;
  notify (lit "Dictation")
         ([0x23F9; 0x20]%N ++ lit "Stopped " ++ [0x2014]%N ++ lit " transcribing" ++ [0x2026]%N) ;;
  print Stdout
        ([0x23F9; 0x20; 0x20]%N ++ lit "Stopped recording " ++ [0x2014]%N ++ lit " transcribing" ++ [0x2026]%N).

(** ** Text injection *)

(** [subprocess.run(["pbpaste"], ...)]: [err] is the exception it raises, if
    any (for instance the 2 s timeout). *)
Definition pbpaste (err : option exn) : M str :=
  modify (emit EvPbpaste) ;;
  match err with
  | Some e => raise e
  | None => get clipboard
  end.

(** [subprocess.run(["pbcopy"], input=text, ..., check=True)]: a failed call
    leaves the pasteboard as it was. *)
Definition pbcopy (err : option exn) (text : str) : M unit :=
  modify (emit (EvPbcopy text)) ;;
  match err with
  | Some e => raise e
  | None => modify (with_clipboard text)
  end.

Definition _get_clipboard (err : option exn) : M str :=
  try_except (pbpaste err) (fun _ => ret []).

Definition _set_clipboard (err : option exn) (text : str) : M unit :=
  try_except (pbcopy err text)
             (fun e => print Stderr (lit "pbcopy error: " ++ exn_str e)).

(** [kb = keyboard.Controller(); with kb.pressed(Key.cmd): kb.press("v");
    kb.release("v")]; [err] is raised by the controller before any key. *)
Definition simulate_paste (err : option exn) : M unit :=
  match err with
  | Some e => raise e
  | None =>
      modify (emit (EvKeyPress KeyCmd)) ;;
      modify (emit (EvKeyPress (KeyChar 0x76))) ;;
      modify (emit (EvKeyRelease (KeyChar 0x76))) ;;
      modify (emit (EvKeyRelease KeyCmd))
  end.

(** What the clipboard commands and the keyboard do during one
    [inject_text]. *)
Record InjectEnv := MkInjectEnv {
  read_err : option exn;        (* pbpaste of the original *)
  write_err : option exn;       (* pbcopy of the text *)
  paste_err : option exn;       (* the Cmd+V chord *)
  restore_err : option exn      (* pbcopy of the original *)
}.

Definition inject_text (env : InjectEnv) (text : str) : M unit :=
  original_clipboard <- _get_clipboard (read_err env) ;;
  _set_clipboard (write_err env) text ;;
  (* time.sleep(0.05) *)
  simulate_paste (paste_err env) ;;
  (* time.sleep(0.25) *)
  _set_clipboard (restore_err env) original_clipboard.

(** ** Transcription *)

(** [os.path.join(a, b)] on POSIX. *)
Definition os_path_join (a b : str) : str :=
  match b with
  | 0x2F%N :: _ => b
  | _ => match rev a with
         | [] => b
         | 0x2F%N :: _ => a ++ b
         | _ => a ++ [0x2F%N] ++ b
         end
  end.

(** [wavfile.write(path, rate, data)]: creates or overwrites the file. *)
Definition wavfile_write (path : str) (rate : Z) (data : ndarray) : M unit :=
  modify (fun w => emit (EvWavWrite path rate data)
                        (with_files (<[path := Wav rate data]> (files w)) w)).

(** [open(path, "rb")]: the file object, here what it reads. *)
Definition open_rb (path : str) : M wav :=
  fun w => match files w !! path with
           | Some f => (Ret f, w)
           | None => (Raise (FileNotFoundError path), w)
           end.

Inductive ApiOutcome :=
| ApiReturns (r : Response)
| ApiRaises (e : exn).

(** [client.audio.transcriptions.create(model=..., file=..., response_format=...)] *)
Definition transcriptions_create (api : ApiOutcome) (model : str) (f : wav) (fmt : str)
  : M Response :=
  modify (emit (EvApiRequest model f fmt)) ;;
  match api with
  | ApiReturns r => ret r
  | ApiRaises e => raise e
  end.

(** [os.remove(path)] *)
Definition os_remove (path : str) : M unit :=
  fun w => match files w !! path with
           | Some _ => (Ret tt, emit (EvRemove path) (with_files (delete path (files w)) w))
           | None => (Raise (FileNotFoundError path), w)
           end.

(** [result.strip() if isinstance(result, str) else result.text.strip()] *)
Definition result_text (result : Response) : str :=
  match result with
  | RespStr s => strip s
  | RespObj text => strip text
  end.

Section Program.

(** [tempfile.gettempdir()], fixed for the life of the process. *)
Variable tempdir : str.

Definition tmp_path : str := os_path_join tempdir (lit "dictation_recording.wav").

Definition transcribe (api : ApiOutcome) (audio : ndarray) : M str :=
  let tmp := os_path_join tempdir (lit "dictation_recording.wav") in
  wavfile_write tmp SAMPLE_RATE audio ;;
  result <- (f <- open_rb tmp ;;
             transcriptions_create api MODEL f (lit "text")) ;;
  os_remove tmp ;;
  ret (result_text result).

(** The three stretches of [transcribe] between which another thread can
    run: up to the file being written, the upload, and the removal. *)
Definition transcribe_write (audio : ndarray) : M unit :=
  wavfile_write (os_path_join tempdir (lit "dictation_recording.wav")) SAMPLE_RATE audio.
Definition transcribe_upload (api : ApiOutcome) : M Response :=
  f <- open_rb (os_path_join tempdir (lit "dictation_recording.wav")) ;;
  transcriptions_create api MODEL f (lit "text").
Definition transcribe_finish (result : Response) : M str :=
  os_remove (os_path_join tempdir (lit "dictation_recording.wav")) ;;
  ret (result_text result).

(** ** Toggle handler *)

(** What the outside world does during one background thread. *)
Record TaskEnv := MkTaskEnv {
  api : ApiOutcome;
  inj : InjectEnv
}.

(** [len(audio) / SAMPLE_RATE].  The source computes it in binary floating
    point; the quotient of two integers is correctly rounded and [0.3] is the
    double nearest to 3/10, so [duration < 0.3] holds of the doubles exactly
    when it holds of the rationals. *)
Definition duration (audio : ndarray) : Q :=
  (inject_Z (Z.of_nat (length audio)) / inject_Z SAMPLE_RATE)%Q.

Definition Qltb (x y : Q) : bool := negb (Qle_bool y x).

Definition _process_recording (env : TaskEnv) : M unit :=
  chunks <- get audio_chunks ;;
  if negb (truthy chunks) then
    print Stderr (lit "No audio captured.")
  else
    chunks <- get audio_chunks ;;
    audio <- match np_concatenate chunks with
             | Some a => ret a
             | None => raise (ValueError (lit "need at least one array to concatenate"))
             end ;;
    if Qltb (duration audio) 0.3 then
      print Stderr (lit "Recording too short, skipping.")
    else
      try_except
        (text <- transcribe (api env) audio ;;
         if truthy text then
           print Stdout ([0x2705]%N ++ lit " Transcribed: " ++ text) ;;
           let preview := firstn 80 text ++ (if (80 <? length text)%nat then [0x2026]%N else []) in
           notify (lit "Dictation") ([0x2705; 0x20]%N ++ preview) ;;
           inject_text (inj env) text
         else
           print Stderr ([0x26A0; 0xFE0F]%N ++ lit "  Empty transcription result."))
        (fun e => print Stderr ([0x274C]%N ++ lit " Transcription error: " ++ exn_str e)).

(** [threading.Thread(target=_process_recording, daemon=True).start()]: the
    thread gets no argument, it will read the module's globals when it runs. *)
Definition thread_start : M unit :=
  modify (fun w => emit EvThreadStart (with_threads (S (threads w)) w)).

(** [on_toggle]: the body runs under [lock], so two calls never overlap; an
    exception leaves the [with] block and releases the lock. *)
Definition on_toggle (dev : DeviceOutcome) : M unit :=
  r <- get is_recording ;;
  if negb r then
    modify (with_is_recording true) ;;
    start_recording dev
  else
    modify (with_is_recording false) ;;
    stop_recording ;;
    thread_start.

(** ** The running process *)

Inductive ControllerState := Idle | Recording.

Definition controller_state (w : World) : ControllerState :=
  if is_recording w then Recording else Idle.

(** What can happen next: the hotkey thread calls [on_toggle], the audio
    thread delivers a block to [_audio_callback] (only an active stream
    does), or a started background thread runs [_process_recording]. *)
Inductive Step :=
| Toggle (dev : DeviceOutcome)
| AudioBlock (indata : ndarray) (status : option str)
| RunThread (env : TaskEnv).

Definition step (e : Step) (w : World) : World :=
  match e with
  | Toggle dev => snd (on_toggle dev w)
  | AudioBlock indata status =>
      match stream w with
      | Some s => if active s then snd (_audio_callback indata status w) else w
      | None => w
      end
  | RunThread env =>
      match threads w with
      | O => w
      | S n => snd (_process_recording env (with_threads n w))
      end
  end.

Definition run (sched : list Step) (w : World) : World :=
  fold_left (fun w e => step e w) sched w.

End Program.

(** ** Observations on a world *)

(** The arguments [transcribe] was called with so far: its first action is
    [wavfile.write(tmp, SAMPLE_RATE, audio)]. *)
Definition transcribe_args (w : World) : list ndarray :=
  omap (fun e => match e with EvWavWrite _ _ data => Some data | _ => None end) (trace w).

(** The paths [wavfile.write] was given so far. *)
Definition wav_paths (w : World) : list str :=
  omap (fun e => match e with EvWavWrite path _ _ => Some path | _ => None end) (trace w).

(** The files uploaded to the API so far. *)
Definition uploads (w : World) : list wav :=
  omap (fun e => match e with EvApiRequest _ f _ => Some f | _ => None end) (trace w).

(** What [inject_text] did so far: clipboard commands and key events. *)
Definition is_injection (e : Event) : bool :=
  match e with
  | EvPbpaste | EvPbcopy _ | EvKeyPress _ | EvKeyRelease _ => true
  | _ => false
  end.
Definition injections (w : World) : list Event :=
  List.filter is_injection (trace w).

(** The controller state after each [Toggle] of a schedule. *)
Fixpoint toggle_states (tempdir : str) (sched : list Step) (w : World)
  : list ControllerState :=
  match sched with
  | [] => []
  | e :: sched' =>
      let w' := step tempdir e w in
      match e with
      | Toggle _ => controller_state w' :: toggle_states tempdir sched' w'
      | _ => toggle_states tempdir sched' w'
      end
  end.

(** The audio thread delivering blocks one after the other. *)
Definition deliver (blocks : list (ndarray * option str)) : list Step :=
  List.map (fun b => AudioBlock (fst b) (snd b)) blocks.

(** The worlds the process can be in. *)
Definition reachable (tempdir : str) (w : World) : Prop :=
  exists clip fs sched, w = run tempdir sched (initial clip fs).

(** [m] leaves the component [f] of the world as it was. *)
Definition preserves {A B} (f : World -> B) (m : M A) : Prop :=
  forall w, f (snd (m w)) = f w.

(** The transcript inside a response of either shape. *)
Definition response_body (r : Response) : str :=
  match r with RespStr s => s | RespObj text => text end.

(** [t] neither starts nor ends with whitespace. *)
Definition trimmed (t : str) : Prop :=
  match head t with Some c => isspace c = false | None => True end
  /\ match last t with Some c => isspace c = false | None => True end.

(** The error with which the device refuses, if it does. *)
Definition device_error (dev : DeviceOutcome) : option exn :=
  match dev with
  | DevOk => None
  | DevOpenFails e | DevStartFails e => Some e
  end.

(** ** Concrete inputs used by the examples *)

Definition tmp : str := lit "/tmp".
Definition fresh : World := initial (lit "orig") ∅.
Definition no_device : DeviceOutcome := DevOpenFails (PortAudioError (lit "no input device")).
Definition network_down : exn := APIError (lit "connection error").
Definition all_fine : InjectEnv := MkInjectEnv None None None None.
Definition hello_env : TaskEnv := MkTaskEnv (ApiReturns (RespStr (lit " hello "))) all_fine.
Definition session_a : ndarray := repeat 1 4800.
Definition busy_schedule : list Step :=
  [Toggle DevOk; AudioBlock session_a None; Toggle DevOk;
   Toggle no_device; RunThread hello_env; Toggle DevOk].
Definition short_audio : ndarray := [1; 2; 3].
Definition short_world : World := with_audio_chunks [short_audio] fresh.
Definition silent_env : TaskEnv := MkTaskEnv (ApiReturns (RespStr (lit " "))) all_fine.
Definition long_world : World := with_audio_chunks [session_a] fresh.
Definition one_second : ndarray := repeat 0 (Z.to_nat SAMPLE_RATE).

(** ** Start-up and the listener loop *)

(** The placeholder that [.env] ships with. *)
Definition PLACEHOLDER : str := lit "your-api-key-here".

(** How the process stands after the events given to it. *)
Inductive ProcessEnd :=
| Listening                 (* still blocked in [hotkey_listener.join()] *)
| CleanExit                 (* [main] returned *)
| Crashed (e : exn)         (* an exception left [main] *)
| SysExit (code : Z).       (* [sys.exit(code)] *)

(** What reaches the process while [main] waits: something of the running
    process ([Step]), or Ctrl+C. *)
Inductive MainEvent :=
| Sys (e : Step)
| CtrlC.

Section Main.

Variable tempdir : str.

(** [hotkey_listener.join()]: every hotkey press runs [on_toggle] in the
    listener thread; an exception of the callback stops the listener and
    [join] raises it again; Ctrl+C raises [KeyboardInterrupt] in [join]. *)
Fixpoint hotkey_listener_join (events : list MainEvent) (w : World)
  : option ProcessEnd * World :=
  match events with
  | [] => (Some Listening, w)
  | CtrlC :: _ => (None, w)                       (* KeyboardInterrupt *)
  | Sys (Toggle dev) :: events' =>
      match on_toggle dev w with
      | (Ret _, w') => hotkey_listener_join events' w'
      | (Raise e, w') => (Some (Crashed e), w')
      end
  | Sys e :: events' => hotkey_listener_join events' (step tempdir e w)
  end.

Definition banner (w : World) : World :=
  emit (EvPrint Stdout (repeat 0x3D%N 50))
    (emit (EvPrint Stdout (lit "  Press Ctrl+C to quit"))
       (emit (EvPrint Stdout (lit "  Model:  " ++ MODEL))
          (emit (EvPrint Stdout (lit "  Hotkey: " ++ HOTKEY))
             (emit (EvPrint Stdout (lit "  Dictation Tool"))
                (emit (EvPrint Stdout (repeat 0x3D%N 50)) w))))).

Definition main (events : list MainEvent) (w : World) : ProcessEnd * World :=
  match hotkey_listener_join events (banner w) with
  | (None, w') =>
      (* except KeyboardInterrupt: print("\nExiting.") *)
      (CleanExit, emit (EvPrint Stdout ([0x0A]%N ++ lit "Exiting.")) w')
  | (Some r, w') => (r, w')
  end.

(** The module from its first line: [getenv] is what the environment (after
    [load_dotenv]) holds for [OPENAI_API_KEY]. *)
Definition program (getenv : option str) (events : list MainEvent) (w : World)
  : ProcessEnd * World :=
  let OPENAI_API_KEY := match getenv with Some k => k | None => [] end in
  if negb (truthy OPENAI_API_KEY) || bool_decide (OPENAI_API_KEY = PLACEHOLDER) then
    (SysExit 1, emit (EvPrint Stderr (lit "ERROR: Set your OPENAI_API_KEY in .env")) w)
  else
    main events w.

End Main.

(** ** More observations *)

(** The lines printed to stderr so far. *)
Definition stderr_lines (w : World) : list str :=
  omap (fun e => match e with EvPrint Stderr l => Some l | _ => None end) (trace w).

(** The notification banners shown so far. *)
Definition notifications (w : World) : list (str * str) :=
  omap (fun e => match e with EvNotify t m => Some (t, m) | _ => None end) (trace w).

(** The requests made to the transcription API so far. *)
Definition requests (w : World) : list Event :=
  List.filter (fun e => match e with EvApiRequest _ _ _ => true | _ => false end) (trace w).

(** Input streams opened and closed so far. *)
Definition stream_opens (w : World) : nat :=
  length (List.filter (fun e => match e with EvStreamOpen _ => true | _ => false end) (trace w)).
Definition stream_closes (w : World) : nat :=
  length (List.filter (fun e => match e with EvStreamClose => true | _ => false end) (trace w)).

(** What the controller keeps true of the stream. *)
Definition stream_inv (w : World) : Prop :=
  (is_recording w = false -> stream w = None)
  /\ (forall s, stream w = Some s ->
                samplerate s = 16000 /\ channels s = 1 /\ dtype s = lit "int16")
  /\ stream_opens w = (stream_closes w + match stream w with Some _ => 1 | None => 0 end)%nat.


(** Every toggle of the schedule finds a working device. *)
Definition device_always_ok (sched : list Step) : Prop :=
  Forall (fun e => match e with Toggle dev => dev = DevOk | _ => True end) sched.

(** More concrete inputs. *)
Definition paste_fails : InjectEnv :=
  MkInjectEnv None None (Some (InjectionError (lit "not trusted"))) None.
Definition read_fails : InjectEnv :=
  MkInjectEnv (Some (SubprocessError (lit "timed out after 2 seconds"))) None None None.
Definition down_env : TaskEnv := MkTaskEnv (ApiRaises network_down) all_fine.
Definition flagged_blocks : list (ndarray * option str) :=
  [(short_audio, None); (short_audio, Some (lit "input overflow"))].

(** * Properties *)

(** ** Text: what [strip] removes *)

Lemma lstrip_split (s : str) :
  exists pre, s = pre ++ lstrip s /\ forallb isspace pre = true.
Proof.
  induction s as [|c s IH]; simpl.
  - exists []. auto.
  - destruct (isspace c) eqn:Hc.
    + destruct IH as (pre & Hs & Hpre).
      exists (c :: pre). simpl. rewrite Hc, Hpre. split; [congruence | reflexivity].
    + exists []. auto.
Qed.

Lemma lstrip_head (s : str) (c : N) (r : str) :
  lstrip s = c :: r -> isspace c = false.
Proof.
  induction s as [|d s IH]; simpl; [discriminate|].
  destruct (isspace d) eqn:Hd; [exact IH|].
  intros [= <- _]. exact Hd.
Qed.

Lemma strip_split (s : str) :
  exists pre post,
    s = pre ++ strip s ++ post
    /\ forallb isspace pre = true /\ forallb isspace post = true.
Proof.
  destruct (lstrip_split s) as (pre & Hs & Hpre).
  destruct (lstrip_split (rev (lstrip s))) as (q & Hq & Hqs).
  exists pre, (rev q). unfold strip, rstrip. repeat split.
  - rewrite <- rev_app_distr, <- Hq, rev_involutive. exact Hs.
  - exact Hpre.
  - rewrite forallb_forall in *. intros x Hx. apply Hqs, in_rev, Hx.
Qed.

Lemma strip_first (s : str) (c : N) (r : str) :
  strip s = c :: r -> isspace c = false.
Proof.
  intros H.
  destruct (lstrip_split (rev (lstrip s))) as (q & Hq & _).
  apply (f_equal (@rev N)) in Hq. rewrite rev_involutive, rev_app_distr in Hq.
  fold (rstrip (lstrip s)) in Hq. fold (strip s) in Hq. rewrite H in Hq.
  simpl in Hq. eapply lstrip_head. exact Hq.
Qed.

Lemma strip_last (s : str) (c : N) (r : str) :
  strip s = r ++ [c] -> isspace c = false.
Proof.
  unfold strip, rstrip. intros H.
  apply (f_equal (@rev N)) in H. rewrite rev_involutive, rev_app_distr in H.
  simpl in H. eapply lstrip_head. exact H.
Qed.

Example strip_unicode :
  strip ([0x20; 0xA0]%N ++ lit "a b" ++ [0x0A; 0x3000]%N) = lit "a b".
Proof. reflexivity. Qed.

(** ** Frame lemmas: which part of the world a function leaves alone *)

Lemma preserves_ret {A B} (f : World -> B) (a : A) : preserves f (ret a).
Proof. intros w. reflexivity. Qed.

Lemma preserves_raise {A B} (f : World -> B) (e : exn) : preserves f (@raise A e).
Proof. intros w. reflexivity. Qed.

Lemma preserves_get {A B} (f : World -> B) (g : World -> A) : preserves f (get g).
Proof. intros w. reflexivity. Qed.

Lemma preserves_modify {B} (f : World -> B) (g : World -> World) :
  (forall w, f (g w) = f w) -> preserves f (modify g).
Proof. intros H w. apply H. Qed.

Lemma preserves_bind {A B C} (f : World -> C) (m : M A) (k : A -> M B) :
  preserves f m -> (forall a, preserves f (k a)) -> preserves f (bind m k).
Proof.
  intros Hm Hk w. unfold bind. specialize (Hm w).
  destruct (m w) as [[a|e] w']; simpl in *.
  - rewrite Hk. exact Hm.
  - exact Hm.
Qed.

Lemma preserves_try {A B} (f : World -> B) (m : M A) (h : exn -> M A) :
  preserves f m -> (forall e, preserves f (h e)) -> preserves f (try_except m h).
Proof.
  intros Hm Hh w. unfold try_except. specialize (Hm w).
  destruct (m w) as [[a|e] w']; simpl in *.
  - exact Hm.
  - rewrite Hh. exact Hm.
Qed.

Lemma preserves_open_rb {B} (f : World -> B) (path : str) : preserves f (open_rb path).
Proof. intros w. unfold open_rb. destruct (files w !! path); reflexivity. Qed.

Lemma preserves_os_remove {B} (f : World -> B) (path : str) :
  (forall fs w, f (emit (EvRemove path) (with_files fs w)) = f w) ->
  preserves f (os_remove path).
Proof. intros H w. unfold os_remove. destruct (files w !! path); simpl; auto. Qed.

(** What one more event adds to each observation. *)
Lemma transcribe_args_emit e w :
  transcribe_args (emit e w)
  = transcribe_args w ++ match e with EvWavWrite _ _ data => [data] | _ => [] end.
Proof. unfold transcribe_args, emit; cbn [trace]. rewrite omap_app. destruct e; reflexivity. Qed.

Lemma wav_paths_emit e w :
  wav_paths (emit e w)
  = wav_paths w ++ match e with EvWavWrite path _ _ => [path] | _ => [] end.
Proof. unfold wav_paths, emit; cbn [trace]. rewrite omap_app. destruct e; reflexivity. Qed.

Lemma uploads_emit e w :
  uploads (emit e w)
  = uploads w ++ match e with EvApiRequest _ f _ => [f] | _ => [] end.
Proof. unfold uploads, emit; cbn [trace]. rewrite omap_app. destruct e; reflexivity. Qed.

Lemma injections_emit e w :
  injections (emit e w) = injections w ++ (if is_injection e then [e] else []).
Proof.
  unfold injections, emit; cbn [trace]. rewrite List.filter_app. cbn.
  destruct (is_injection e); reflexivity.
Qed.

Ltac frame_side :=
  intros;
  first [ reflexivity
        | rewrite ?transcribe_args_emit, ?wav_paths_emit, ?uploads_emit, ?injections_emit;
          cbn; rewrite ?app_nil_r; reflexivity ].

(** Splits a frame goal along the structure of the program. *)
Ltac frame_step :=
  match goal with
  | |- preserves _ (bind _ _) => apply preserves_bind; [|intros ?]
  | |- preserves _ (try_except _ _) => apply preserves_try; [|intros ?]
  | |- preserves _ (ret _) => apply preserves_ret
  | |- preserves _ (raise _) => apply preserves_raise
  | |- preserves _ (get _) => apply preserves_get
  | |- preserves _ (modify _) => apply preserves_modify; frame_side
  | |- preserves _ (open_rb _) => apply preserves_open_rb
  | |- preserves _ (os_remove _) => apply preserves_os_remove; frame_side
  | |- preserves _ (match ?x with _ => _ end) => destruct x
  | |- preserves _ (let _ := _ in _) => cbv zeta
  end.

Ltac frame :=
  unfold _process_recording, transcribe, inject_text, _get_clipboard, _set_clipboard,
    pbpaste, pbcopy, simulate_paste, wavfile_write, transcriptions_create,
    start_recording, stop_recording, sd_InputStream, stream_start, thread_start,
    _audio_callback, play_sound, notify, print;
  repeat frame_step.

Lemma process_recording_is_recording tempdir env :
  preserves is_recording (_process_recording tempdir env).
Proof. frame. Qed.



Lemma audio_callback_is_recording indata status :
  preserves is_recording (_audio_callback indata status).
Proof. frame. Qed.

Lemma start_recording_is_recording dev : preserves is_recording (start_recording dev).
Proof. frame. Qed.

Lemma stop_recording_is_recording : preserves is_recording stop_recording.
Proof. frame. Qed.

Lemma bind_get {A B} (g : World -> A) (k : A -> M B) w :
  bind (get g) k w = k (g w) w.
Proof. reflexivity. Qed.

Lemma bind_modify {B} (g : World -> World) (k : unit -> M B) w :
  bind (modify g) k w = k tt (g w).
Proof. reflexivity. Qed.

(** Every call of [on_toggle] flips the flag, whatever the device does. *)
Lemma on_toggle_flips dev w :
  is_recording (snd (on_toggle dev w)) = negb (is_recording w).
Proof.
  unfold on_toggle. rewrite bind_get.
  destruct (is_recording w) eqn:Hr; cbn [negb]; rewrite bind_modify.
  - assert (P : preserves is_recording (stop_recording ;; thread_start)) by frame.
    rewrite P. reflexivity.
  - rewrite start_recording_is_recording. reflexivity.
Qed.

Lemma step_is_recording tempdir e w :
  is_recording (step tempdir e w)
  = match e with Toggle _ => negb (is_recording w) | _ => is_recording w end.
Proof.
  destruct e as [dev|indata status|env]; unfold step.
  - apply on_toggle_flips.
  - destruct (stream w) as [s|]; [destruct (active s)|]; try reflexivity.
    apply audio_callback_is_recording.
  - destruct (threads w); [reflexivity|].
    rewrite process_recording_is_recording. reflexivity.
Qed.

(** ** The toggle state machine *)

Lemma toggle_states_parity tempdir sched :
  forall w i s,
    toggle_states tempdir sched w !! i = Some s ->
    s = if xorb (Nat.even i) (is_recording w) then Recording else Idle.
Proof.
  induction sched as [|e sched IH]; intros w i s H; [discriminate|].
  cbn [toggle_states] in H.
  pose proof (step_is_recording tempdir e w) as Hstep.
  set (w' := step tempdir e w) in *. clearbody w'.
  destruct e as [dev|indata status|env].
  - destruct i as [|i].
    + cbn in H. injection H as <-. unfold controller_state. rewrite Hstep.
      destruct (is_recording w); reflexivity.
    + cbn in H. apply IH in H. rewrite Hstep in H. rewrite Nat.even_succ, <- Nat.negb_even.
      destruct (Nat.even i), (is_recording w); exact H.
  - apply IH in H. rewrite Hstep in H. exact H.
  - apply IH in H. rewrite Hstep in H. exact H.
Qed.

(** C2: starting from Idle, the state after the calls of [on_toggle] is
    Recording, Idle, Recording, ... whatever the device answers and whatever
    the audio thread and the background threads do in between; two
    consecutive calls never leave the same state. *)
Theorem toggle_alternates tempdir sched w :
  controller_state w = Idle ->
  (forall i s, toggle_states tempdir sched w !! i = Some s ->
               s = if Nat.even i then Recording else Idle)
  /\ (forall i s1 s2, toggle_states tempdir sched w !! i = Some s1 ->
                      toggle_states tempdir sched w !! S i = Some s2 ->
                      s1 <> s2).
Proof.
  intros Hidle.
  assert (Hr : is_recording w = false).
  { unfold controller_state in Hidle. destruct (is_recording w); [discriminate|reflexivity]. }
  assert (P : forall i s, toggle_states tempdir sched w !! i = Some s ->
                          s = if Nat.even i then Recording else Idle).
  { intros i s H. apply toggle_states_parity in H. rewrite Hr, xorb_false_r in H. exact H. }
  split; [exact P|].
  intros i s1 s2 H1 H2. apply P in H1, H2. subst.
  rewrite Nat.even_succ, <- Nat.negb_even. destruct (Nat.even i); discriminate.
Qed.

Lemma toggle_alternates_witness :
  controller_state fresh = Idle
  /\ forall i s1 s2,
       toggle_states tmp busy_schedule fresh !! i = Some s1 ->
       toggle_states tmp busy_schedule fresh !! S i = Some s2 ->
       s1 <> s2.
Proof.
  split; [reflexivity|].
  apply (toggle_alternates tmp busy_schedule fresh). reflexivity.
Defined.

Example busy_schedule_states :
  toggle_states tmp busy_schedule fresh = [Recording; Idle; Recording; Idle].
Proof. vm_compute. reflexivity. Qed.

(** C1, as the code has it: when [start_recording] raises during a toggle
    from Idle, the exception leaves [on_toggle] and the flag set before the
    call stays: the controller is in Recording, and the next toggle takes the
    stop branch back to Idle. *)
Theorem on_toggle_start_failure dev e w :
  controller_state w = Idle ->
  fst (start_recording dev (with_is_recording true w)) = Raise e ->
  fst (on_toggle dev w) = Raise e
  /\ controller_state (snd (on_toggle dev w)) = Recording
  /\ forall dev', controller_state (snd (on_toggle dev' (snd (on_toggle dev w)))) = Idle.
Proof.
  intros Hidle Hfail.
  assert (Hr : is_recording w = false).
  { unfold controller_state in Hidle. destruct (is_recording w); [discriminate|reflexivity]. }
  assert (Hrec : is_recording (snd (on_toggle dev w)) = true).
  { rewrite on_toggle_flips, Hr. reflexivity. }
  split; [|split].
  - unfold on_toggle. rewrite bind_get, Hr. cbn [negb]. rewrite bind_modify. exact Hfail.
  - unfold controller_state. rewrite Hrec. reflexivity.
  - intros dev'. unfold controller_state. rewrite on_toggle_flips, Hrec. reflexivity.
Qed.

Lemma on_toggle_start_failure_witness :
  controller_state fresh = Idle
  /\ fst (start_recording no_device (with_is_recording true fresh))
     = Raise (PortAudioError (lit "no input device"))
  /\ controller_state (snd (on_toggle no_device fresh)) = Recording.
Proof.
  split; [reflexivity|]. split; [reflexivity|].
  apply (on_toggle_start_failure no_device (PortAudioError (lit "no input device")) fresh);
    reflexivity.
Defined.

(** C1 as stated fails: with no input device, the toggle from Idle raises
    and leaves the controller in Recording, not Idle. *)
Lemma start_failure_stays_recording :
  controller_state fresh = Idle
  /\ fst (on_toggle no_device fresh) = Raise (PortAudioError (lit "no input device"))
  /\ controller_state (snd (on_toggle no_device fresh)) <> Idle.
Proof. repeat split. discriminate. Qed.

(** The device fails exactly when [start_recording] raises. *)
Lemma start_recording_raises dev w :
  fst (start_recording dev w)
  = match device_error dev with Some e => Raise e | None => Ret tt end.
Proof. destruct dev; reflexivity. Qed.

(** ** Transcription *)

Lemma transcribe_phases tempdir api audio :
  forall w, transcribe tempdir api audio w
            = (transcribe_write tempdir audio ;;
               result <- transcribe_upload tempdir api ;;
               transcribe_finish tempdir result) w.
Proof. reflexivity. Qed.

(** C3 at the failing input: when the API call raises, [transcribe] raises
    too and the WAV file is still there. *)
Theorem transcribe_api_error_leaves_file tempdir e audio w :
  fst (transcribe tempdir (ApiRaises e) audio w) = Raise e
  /\ files (snd (transcribe tempdir (ApiRaises e) audio w)) !! tmp_path tempdir
     = Some (Wav SAMPLE_RATE audio).
Proof.
  unfold transcribe, tmp_path. set (p := os_path_join tempdir _).
  unfold wavfile_write. rewrite bind_modify.
  unfold bind, open_rb. cbn [files emit with_files].
  rewrite lookup_insert_eq. cbn. rewrite lookup_insert_eq. auto.
Qed.

(** On the path where the API answers, the file is removed. *)
Lemma transcribe_success_removes_file tempdir r audio w :
  transcribe tempdir (ApiReturns r) audio w
  = (Ret (result_text r),
     emit (EvRemove (tmp_path tempdir))
       (with_files (delete (tmp_path tempdir) (files w))
          (emit (EvApiRequest MODEL (Wav SAMPLE_RATE audio) (lit "text"))
             (emit (EvWavWrite (tmp_path tempdir) SAMPLE_RATE audio) w)))).
Proof.
  unfold transcribe, tmp_path. set (p := os_path_join tempdir _).
  unfold wavfile_write. rewrite bind_modify.
  unfold bind, open_rb, os_remove. cbn [files emit with_files].
  rewrite lookup_insert_eq. cbn. rewrite lookup_insert_eq.
  unfold emit, with_files; cbn. rewrite delete_insert_eq. reflexivity.
Qed.

(** C7: for both shapes of the response, a plain string and an object with
    a [.text] field, [transcribe] returns the transcript with the surrounding
    whitespace removed: the transcript is what is returned between a prefix
    and a suffix made of whitespace only, and what is returned neither starts
    nor ends with whitespace. *)
Theorem transcribe_returns_trimmed tempdir audio r w :
  fst (transcribe tempdir (ApiReturns r) audio w)
  = Ret (match r with RespStr s => strip s | RespObj text => strip text end)
  /\ fst (transcribe tempdir (ApiReturns r) audio w) = Ret (strip (response_body r))
  /\ trimmed (strip (response_body r))
  /\ exists pre post,
       response_body r = pre ++ strip (response_body r) ++ post
       /\ forallb isspace pre = true /\ forallb isspace post = true.
Proof.
  rewrite transcribe_success_removes_file. cbn [fst].
  split; [destruct r; reflexivity|]. split; [destruct r; reflexivity|].
  split; [|apply strip_split].
  unfold trimmed. split.
  - destruct (strip (response_body r)) as [|c t] eqn:Hs; [exact I|].
    cbn. eapply strip_first, Hs.
  - destruct (last (strip (response_body r))) as [c|] eqn:Hl; [|exact I].
    apply last_Some in Hl as [l' Hl]. eapply strip_last, Hl.
Qed.

(** ** The background thread *)

Lemma Qltb_lt (x y : Q) : Qltb x y = true <-> (x < y)%Q.
Proof.
  unfold Qltb. rewrite negb_true_iff, <- not_true_iff_false, Qle_bool_iff.
  split; [apply Qnot_le_lt | apply Qlt_not_le].
Qed.

(** Less than 0.3 s at 16 kHz is less than 4800 frames. *)
Lemma duration_short (audio : ndarray) :
  (duration audio < 0.3)%Q <-> (length audio < 4800)%nat.
Proof.
  unfold duration, Qlt, Qdiv, Qmult, Qinv, inject_Z, SAMPLE_RATE. cbn. lia.
Qed.

Lemma process_recording_no_audio tempdir env w :
  audio_chunks w = [] ->
  _process_recording tempdir env w
  = (Ret tt, emit (EvPrint Stderr (lit "No audio captured.")) w).
Proof.
  intros H. unfold _process_recording. rewrite bind_get, H. reflexivity.
Qed.

(** C5: a captured buffer shorter than 0.3 s makes the background thread
    print the too-short line to stderr and return; nothing else happens, so
    [transcribe] is not called and nothing is uploaded. *)
Theorem short_recording_not_transcribed tempdir env w audio :
  np_concatenate (audio_chunks w) = Some audio ->
  (duration audio < 0.3)%Q ->
  _process_recording tempdir env w
  = (Ret tt, emit (EvPrint Stderr (lit "Recording too short, skipping.")) w)
  /\ transcribe_args (snd (_process_recording tempdir env w)) = transcribe_args w
  /\ uploads (snd (_process_recording tempdir env w)) = uploads w.
Proof.
  intros Hcat Hshort. apply Qltb_lt in Hshort.
  assert (E : _process_recording tempdir env w
              = (Ret tt, emit (EvPrint Stderr (lit "Recording too short, skipping.")) w)).
  { unfold _process_recording. rewrite bind_get.
    destruct (audio_chunks w) as [|c cs] eqn:Hc; [discriminate|].
    cbn [truthy negb]. rewrite bind_get, Hc, Hcat.
    unfold bind at 1, ret at 1. rewrite Hshort. reflexivity. }
  rewrite E. cbn [snd]. rewrite transcribe_args_emit, uploads_emit. cbn.
  rewrite !app_nil_r. auto.
Qed.

Lemma short_recording_not_transcribed_witness :
  np_concatenate (audio_chunks short_world) = Some short_audio
  /\ (duration short_audio < 0.3)%Q
  /\ transcribe_args (snd (_process_recording tmp hello_env short_world))
     = transcribe_args short_world.
Proof.
  split; [reflexivity|]. split; [reflexivity|].
  apply (short_recording_not_transcribed tmp hello_env short_world short_audio); reflexivity.
Defined.

Lemma transcribe_api_error tempdir e audio w :
  transcribe tempdir (ApiRaises e) audio w
  = (Raise e,
     emit (EvApiRequest MODEL (Wav SAMPLE_RATE audio) (lit "text"))
       (with_files (<[tmp_path tempdir := Wav SAMPLE_RATE audio]> (files w))
          (emit (EvWavWrite (tmp_path tempdir) SAMPLE_RATE audio) w))).
Proof.
  unfold transcribe, tmp_path. set (p := os_path_join tempdir _).
  unfold wavfile_write. rewrite bind_modify.
  unfold bind, open_rb. cbn [files emit with_files].
  rewrite lookup_insert_eq. reflexivity.
Qed.

Lemma transcribe_injections tempdir api audio w :
  injections (snd (transcribe tempdir api audio w)) = injections w.
Proof.
  destruct api as [r|e].
  - rewrite transcribe_success_removes_file. cbn [snd].
    rewrite injections_emit. cbn. rewrite app_nil_r.
    change (injections (emit (EvApiRequest MODEL (Wav SAMPLE_RATE audio) (lit "text"))
                          (emit (EvWavWrite (tmp_path tempdir) SAMPLE_RATE audio) w))
            = injections w).
    rewrite !injections_emit. cbn. rewrite !app_nil_r. reflexivity.
  - rewrite transcribe_api_error. cbn [snd].
    change (injections (emit (EvApiRequest MODEL (Wav SAMPLE_RATE audio) (lit "text"))
                          (emit (EvWavWrite (tmp_path tempdir) SAMPLE_RATE audio) w))
            = injections w).
    rewrite !injections_emit. cbn. rewrite !app_nil_r. reflexivity.
Qed.

(** C8: when [transcribe] returns the empty string, the background thread
    prints the empty-result line to stderr and returns normally; the
    [except] branch is not taken and [inject_text] is not called: no
    clipboard command, no key event. *)
Theorem empty_transcription_not_injected tempdir env w audio w' :
  np_concatenate (audio_chunks w) = Some audio ->
  ~ (duration audio < 0.3)%Q ->
  transcribe tempdir (api env) audio w = (Ret [], w') ->
  _process_recording tempdir env w
  = (Ret tt, emit (EvPrint Stderr ([0x26A0; 0xFE0F]%N ++ lit "  Empty transcription result.")) w')
  /\ injections (snd (_process_recording tempdir env w)) = injections w
  /\ clipboard (snd (_process_recording tempdir env w)) = clipboard w.
Proof.
  intros Hcat Hlong Htr.
  assert (Hq : Qltb (duration audio) 0.3 = false).
  { apply not_true_iff_false. rewrite Qltb_lt. exact Hlong. }
  assert (E : _process_recording tempdir env w
              = (Ret tt, emit (EvPrint Stderr ([0x26A0; 0xFE0F]%N ++ lit "  Empty transcription result.")) w')).
  { unfold _process_recording. rewrite bind_get.
    destruct (audio_chunks w) as [|c cs] eqn:Hc; [discriminate|].
    cbn [truthy negb]. rewrite bind_get, Hc, Hcat.
    unfold bind at 1, ret at 1. rewrite Hq.
    unfold try_except, bind at 1. rewrite Htr. reflexivity. }
  rewrite E. cbn [snd]. split; [reflexivity|].
  pose proof (transcribe_injections tempdir (api env) audio w) as Hi.
  assert (Hcl : preserves clipboard (transcribe tempdir (api env) audio)) by frame.
  specialize (Hcl w). rewrite Htr in Hi, Hcl. cbn [snd] in Hi, Hcl.
  rewrite injections_emit. cbn. rewrite app_nil_r. auto.
Qed.

Lemma empty_transcription_not_injected_witness :
  np_concatenate (audio_chunks long_world) = Some session_a
  /\ ~ (duration session_a < 0.3)%Q
  /\ fst (transcribe tmp (api silent_env) session_a long_world) = Ret []
  /\ injections (snd (_process_recording tmp silent_env long_world)) = injections long_world.
Proof.
  split; [reflexivity|]. split; [intros H; apply duration_short in H; vm_compute in H; lia|].
  split; [reflexivity|].
  eapply (empty_transcription_not_injected tmp silent_env long_world session_a).
  - reflexivity.
  - intros H; apply duration_short in H; vm_compute in H; lia.
  - unfold silent_env; cbn [api]. rewrite transcribe_success_removes_file. reflexivity.
Defined.

(** ** Text injection *)




(** ** The recorder *)

Lemma run_snoc tempdir sched e w :
  run tempdir (sched ++ [e]) w = step tempdir e (run tempdir sched w).
Proof. unfold run. rewrite fold_left_app. reflexivity. Qed.


(** With no device error the stream is open and started after
    [start_recording]; otherwise the buffer is empty. *)
Lemma start_recording_state dev w :
  audio_chunks (snd (start_recording dev w)) = []
  /\ threads (snd (start_recording dev w)) = threads w
  /\ transcribe_args (snd (start_recording dev w)) = transcribe_args w
  /\ match dev with
     | DevOk => stream (snd (start_recording dev w))
                = Some (MkStream SAMPLE_RATE 1 (lit "int16") true)
     | DevOpenFails _ => stream (snd (start_recording dev w)) = stream w
     | DevStartFails _ => stream (snd (start_recording dev w))
                          = Some (MkStream SAMPLE_RATE 1 (lit "int16") false)
     end.
Proof.
  assert (P : preserves threads (start_recording dev)) by frame.
  assert (T : preserves transcribe_args (start_recording dev)) by frame.
  rewrite P, T. destruct dev; repeat split; reflexivity.
Qed.

Lemma stop_recording_state w :
  fst (stop_recording w) = Ret tt
  /\ stream (snd (stop_recording w)) = None
  /\ audio_chunks (snd (stop_recording w)) = audio_chunks w
  /\ is_recording (snd (stop_recording w)) = is_recording w
  /\ threads (snd (stop_recording w)) = threads w
  /\ transcribe_args (snd (stop_recording w)) = transcribe_args w.
Proof.
  assert (T : preserves transcribe_args stop_recording) by frame.
  rewrite T. unfold stop_recording. rewrite bind_get.
  destruct (stream w) eqn:Hs; repeat split; try reflexivity. exact Hs.
Qed.





(** At any state without a stream, [stop_recording] touches neither the
    stream nor the buffer. *)
Lemma stop_recording_no_stream w :
  stream w = None ->
  stop_recording w
  = (Ret tt,
     emit (EvPrint Stdout ([0x23F9; 0x20; 0x20]%N ++ lit "Stopped recording "
                           ++ [0x2014]%N ++ lit " transcribing" ++ [0x2026]%N))
       (emit (EvNotify (lit "Dictation")
                ([0x23F9; 0x20]%N ++ lit "Stopped " ++ [0x2014]%N
                 ++ lit " transcribing" ++ [0x2026]%N))
          (emit (EvSound (lit "Bottle")) w))).
Proof. intros H. unfold stop_recording. rewrite bind_get, H. reflexivity. Qed.

(** ** The temp file *)

(** C10: every call of [transcribe] writes exactly one WAV file, always at
    the path of [dictation_recording.wav] in the temp directory, whatever the
    samples, the API and the state; so when a second call writes between the
    write and the upload of a first one, the first uploads the samples of the
    second. *)
Theorem transcribe_fixed_path tempdir :
  (forall api audio w,
     wav_paths (snd (transcribe tempdir api audio w))
     = wav_paths w ++ [os_path_join tempdir (lit "dictation_recording.wav")])
  /\ (forall api audio1 audio2 w,
        uploads (snd ((transcribe_write tempdir audio1 ;;
                       transcribe_write tempdir audio2 ;;
                       transcribe_upload tempdir api) w))
        = uploads w ++ [Wav SAMPLE_RATE audio2]).
Proof.
  split.
  - intros [r|e] audio w.
    + rewrite transcribe_success_removes_file. cbn [snd].
      rewrite wav_paths_emit. cbn.
      change (wav_paths (emit (EvApiRequest MODEL (Wav SAMPLE_RATE audio) (lit "text"))
                           (emit (EvWavWrite (tmp_path tempdir) SAMPLE_RATE audio) w)) ++ []
              = wav_paths w ++ [tmp_path tempdir]).
      rewrite !wav_paths_emit. cbn. rewrite !app_nil_r. reflexivity.
    + rewrite transcribe_api_error. cbn [snd].
      change (wav_paths (emit (EvApiRequest MODEL (Wav SAMPLE_RATE audio) (lit "text"))
                           (emit (EvWavWrite (tmp_path tempdir) SAMPLE_RATE audio) w))
              = wav_paths w ++ [tmp_path tempdir]).
      rewrite !wav_paths_emit. cbn. rewrite !app_nil_r. reflexivity.
  - intros api audio1 audio2 w.
    unfold transcribe_write, transcribe_upload, wavfile_write.
    set (p := os_path_join tempdir _).
    rewrite !bind_modify. unfold bind at 1, open_rb. cbn [files emit with_files].
    rewrite lookup_insert_eq. unfold transcriptions_create. rewrite bind_modify.
    destruct api; cbn [snd ret raise]; rewrite uploads_emit; f_equal;
      unfold uploads; cbn [trace emit with_files];
      rewrite !omap_app; cbn; rewrite !app_nil_r; reflexivity.
Qed.

(** ** Background threads and the shared buffer *)

Lemma try_except_bind {A B} (m : M A) (k : A -> M B) (h : exn -> M B) w :
  try_except (bind m k) h w
  = match m w with
    | (Ret a, w') => try_except (k a) h w'
    | (Raise e, w') => h e w'
    end.
Proof. unfold try_except, bind. destruct (m w) as [[a|e] w']; reflexivity. Qed.

(** The thread calls [transcribe] at most once, on the concatenation of
    whatever [audio_chunks] holds when it runs. *)
Lemma process_recording_transcribe_args tempdir env w :
  transcribe_args (snd (_process_recording tempdir env w))
  = transcribe_args w
    ++ match np_concatenate (audio_chunks w) with
       | Some audio => if Qltb (duration audio) 0.3 then [] else [audio]
       | None => []
       end.
Proof.
  unfold _process_recording. rewrite bind_get.
  destruct (audio_chunks w) as [|c cs] eqn:Hc.
  { cbn [truthy negb]. unfold print, modify. cbn [snd np_concatenate].
    rewrite transcribe_args_emit. reflexivity. }
  cbn [truthy negb]. rewrite bind_get, Hc. cbn [np_concatenate].
  unfold bind at 1, ret at 1.
  destruct (Qltb (duration (concat (c :: cs))) 0.3).
  { unfold print, modify. cbn [snd]. rewrite transcribe_args_emit. reflexivity. }
  rewrite try_except_bind.
  destruct (api env) as [r|e].
  - rewrite transcribe_success_removes_file.
    match goal with
    | |- transcribe_args (snd (?m ?W)) = _ =>
        assert (P : preserves transcribe_args m) by frame; rewrite P
    end.
    rewrite transcribe_args_emit. cbn [app].
    change (transcribe_args
              (emit (EvApiRequest MODEL (Wav SAMPLE_RATE (concat (c :: cs))) (lit "text"))
                 (emit (EvWavWrite (tmp_path tempdir) SAMPLE_RATE (concat (c :: cs))) w)) ++ []
            = transcribe_args w ++ [concat (c :: cs)]).
    rewrite !transcribe_args_emit, !app_nil_r. reflexivity.
  - rewrite transcribe_api_error. unfold print, modify. cbn [snd].
    rewrite transcribe_args_emit. cbn [app].
    change (transcribe_args
              (emit (EvApiRequest MODEL (Wav SAMPLE_RATE (concat (c :: cs))) (lit "text"))
                 (emit (EvWavWrite (tmp_path tempdir) SAMPLE_RATE (concat (c :: cs))) w)) ++ []
            = transcribe_args w ++ [concat (c :: cs)]).
    rewrite !transcribe_args_emit, !app_nil_r. reflexivity.
Qed.

(** Whatever the buffer holds, fewer than 4800 frames never reach
    [transcribe]. *)
Lemma short_buffer_never_transcribed tempdir env w :
  (length (concat (audio_chunks w)) < 4800)%nat ->
  transcribe_args (snd (_process_recording tempdir env w)) = transcribe_args w.
Proof.
  intros H. rewrite process_recording_transcribe_args.
  destruct (audio_chunks w) as [|c cs]; cbn [np_concatenate]; [apply app_nil_r|].
  apply duration_short, Qltb_lt in H. rewrite H. apply app_nil_r.
Qed.

Lemma audio_callback_state indata status w :
  audio_chunks (snd (_audio_callback indata status w)) = audio_chunks w ++ [indata]
  /\ stream (snd (_audio_callback indata status w)) = stream w
  /\ threads (snd (_audio_callback indata status w)) = threads w
  /\ transcribe_args (snd (_audio_callback indata status w)) = transcribe_args w.
Proof.
  assert (T : preserves transcribe_args (_audio_callback indata status)) by frame.
  rewrite T. destruct status; repeat split; reflexivity.
Qed.

(** While the stream is active, the delivered blocks are appended in order. *)
Lemma deliver_state tempdir blocks :
  forall w s, stream w = Some s -> active s = true ->
    audio_chunks (run tempdir (deliver blocks) w) = audio_chunks w ++ List.map fst blocks
    /\ stream (run tempdir (deliver blocks) w) = stream w
    /\ is_recording (run tempdir (deliver blocks) w) = is_recording w
    /\ threads (run tempdir (deliver blocks) w) = threads w
    /\ transcribe_args (run tempdir (deliver blocks) w) = transcribe_args w.
Proof.
  induction blocks as [|[indata status] blocks IH]; intros w s Hs Ha.
  - cbn. rewrite app_nil_r. auto.
  - change (run tempdir (deliver ((indata, status) :: blocks)) w)
      with (run tempdir (deliver blocks) (step tempdir (AudioBlock indata status) w)).
    pose proof (step_is_recording tempdir (AudioBlock indata status) w) as Hr.
    cbn [step] in *. rewrite Hs, Ha in *.
    destruct (audio_callback_state indata status w) as (C & S & Th & T).
    destruct (IH (snd (_audio_callback indata status w)) s) as (C' & S' & R' & Th' & T');
      [congruence | exact Ha |].
    rewrite C', S', R', Th', T', C, S, Hr, Th, T. cbn [List.map fst].
    rewrite <- app_assoc. auto.
Qed.

Lemma on_toggle_stop dev w :
  is_recording w = true ->
  audio_chunks (snd (on_toggle dev w)) = audio_chunks w
  /\ threads (snd (on_toggle dev w)) = S (threads w)
  /\ transcribe_args (snd (on_toggle dev w)) = transcribe_args w.
Proof.
  intros Hr. unfold on_toggle. rewrite bind_get, Hr. cbn [negb]. rewrite bind_modify.
  destruct (stop_recording_state (with_is_recording false w)) as (R & _ & C & _ & Th & T).
  revert R C Th T. unfold bind.
  destruct (stop_recording (with_is_recording false w)) as [[[]|e] w'];
    cbn [fst snd]; intros R C Th T; [|discriminate].
  unfold thread_start, modify. cbn [snd].
  rewrite transcribe_args_emit, app_nil_r.
  change (audio_chunks w' = audio_chunks w /\ S (threads w') = S (threads w)
          /\ transcribe_args w' = transcribe_args w).
  rewrite C, Th, T. auto.
Qed.




(** ** Scenarios *)

(** A toggle with a working microphone opens and starts the stream; a second
    toggle after one second of audio stops it, and the background thread
    calls [transcribe] once, with that second of audio. *)
Example scenario_one_second :
  let w1 := run tmp [Toggle DevOk] fresh in
  let w2 := run tmp [AudioBlock one_second None; Toggle DevOk; RunThread silent_env] w1 in
  controller_state w1 = Recording
  /\ stream w1 = Some (MkStream 16000 1 (lit "int16") true)
  /\ controller_state w2 = Idle
  /\ stream w2 = None
  /\ transcribe_args w2 = [one_second]
  /\ injections w2 = [].
Proof. vm_compute. repeat split. Qed.

(** Two toggles in a row: nothing reaches [transcribe] or the clipboard. *)
Example scenario_immediate_stop :
  let w := run tmp [Toggle DevOk; AudioBlock short_audio None; Toggle DevOk;
                    RunThread hello_env] fresh in
  transcribe_args w = [] /\ injections w = []
  /\ last (trace w) = Some (EvPrint Stderr (lit "Recording too short, skipping.")).
Proof. vm_compute. repeat split. Qed.

(** The API fails: no injection, the error is printed, and the next toggle
    from Idle starts a recording. *)
Example scenario_api_failure :
  let w := run tmp [Toggle DevOk; AudioBlock session_a None; Toggle DevOk;
                    RunThread (MkTaskEnv (ApiRaises network_down) all_fine)] fresh in
  injections w = []
  /\ last (trace w)
     = Some (EvPrint Stderr ([0x274C]%N ++ lit " Transcription error: connection error"))
  /\ controller_state w = Idle
  /\ controller_state (step tmp (Toggle DevOk) w) = Recording
  /\ files w !! tmp_path tmp = Some (Wav 16000 session_a).
Proof. vm_compute. repeat split. Qed.

(** A transcript is pasted with Cmd+V and the clipboard is put back. *)
Example scenario_paste :
  let w := run tmp [Toggle DevOk; AudioBlock session_a None; Toggle DevOk;
                    RunThread hello_env] fresh in
  injections w
  = [EvPbpaste; EvPbcopy (lit "hello");
     EvKeyPress KeyCmd; EvKeyPress (KeyChar 0x76);
     EvKeyRelease (KeyChar 0x76); EvKeyRelease KeyCmd;
     EvPbcopy (lit "orig")]
  /\ clipboard w = lit "orig"
  /\ files w !! tmp_path tmp = None.
Proof. vm_compute. repeat split. Qed.

(** * Further properties of the code *)

(** ** The background thread, whatever happens *)


(** X2: the background thread never touches the controller or the recorder:
    the flag, the buffer, the stream and the count of started threads are
    after it what they were before. *)
Theorem process_recording_leaves_recorder tempdir env w :
  is_recording (snd (_process_recording tempdir env w)) = is_recording w
  /\ audio_chunks (snd (_process_recording tempdir env w)) = audio_chunks w
  /\ stream (snd (_process_recording tempdir env w)) = stream w
  /\ threads (snd (_process_recording tempdir env w)) = threads w.
Proof.
  assert (P1 : preserves is_recording (_process_recording tempdir env)) by frame.
  assert (P2 : preserves audio_chunks (_process_recording tempdir env)) by frame.
  assert (P3 : preserves stream (_process_recording tempdir env)) by frame.
  assert (P4 : preserves threads (_process_recording tempdir env)) by frame.
  auto.
Qed.

(** What the thread does up to the call of [transcribe]. *)
Lemma process_recording_long tempdir env w audio :
  np_concatenate (audio_chunks w) = Some audio ->
  ~ (duration audio < 0.3)%Q ->
  _process_recording tempdir env w
  = try_except
      (text <- transcribe tempdir (api env) audio ;;
       if truthy text then
         print Stdout ([0x2705]%N ++ lit " Transcribed: " ++ text) ;;
         let preview := firstn 80 text ++ (if (80 <? length text)%nat then [0x2026]%N else []) in
         notify (lit "Dictation") ([0x2705; 0x20]%N ++ preview) ;;
         inject_text (inj env) text
       else
         print Stderr ([0x26A0; 0xFE0F]%N ++ lit "  Empty transcription result."))
      (fun e => print Stderr ([0x274C]%N ++ lit " Transcription error: " ++ exn_str e)) w.
Proof.
  intros Hcat Hlong.
  assert (Hq : Qltb (duration audio) 0.3 = false).
  { apply not_true_iff_false. rewrite Qltb_lt. exact Hlong. }
  unfold _process_recording. rewrite bind_get.
  destruct (audio_chunks w) as [|c cs] eqn:Hc; [discriminate|].
  cbn [truthy negb]. rewrite bind_get, Hc, Hcat.
  unfold bind at 1, ret at 1. rewrite Hq. reflexivity.
Qed.

(** X3: when the API call fails, the thread prints the error to stderr and
    returns; the recording stays in the temp file, nothing is pasted and the
    clipboard is not read or written. *)
Theorem api_error_not_injected tempdir env w audio e :
  np_concatenate (audio_chunks w) = Some audio ->
  ~ (duration audio < 0.3)%Q ->
  api env = ApiRaises e ->
  _process_recording tempdir env w
  = (Ret tt,
     emit (EvPrint Stderr ([0x274C]%N ++ lit " Transcription error: " ++ exn_str e))
       (emit (EvApiRequest MODEL (Wav SAMPLE_RATE audio) (lit "text"))
          (with_files (<[tmp_path tempdir := Wav SAMPLE_RATE audio]> (files w))
             (emit (EvWavWrite (tmp_path tempdir) SAMPLE_RATE audio) w))))
  /\ injections (snd (_process_recording tempdir env w)) = injections w
  /\ clipboard (snd (_process_recording tempdir env w)) = clipboard w.
Proof.
  intros Hcat Hlong Hapi.
  rewrite (process_recording_long tempdir env w audio Hcat Hlong).
  rewrite try_except_bind, Hapi, transcribe_api_error.
  unfold print, modify. cbn [snd]. split; [reflexivity|]. split; [|reflexivity].
  rewrite injections_emit. cbn [is_injection]. rewrite app_nil_r.
  change (injections (emit (EvApiRequest MODEL (Wav SAMPLE_RATE audio) (lit "text"))
                        (emit (EvWavWrite (tmp_path tempdir) SAMPLE_RATE audio) w))
          = injections w).
  rewrite !injections_emit. cbn. rewrite !app_nil_r. reflexivity.
Qed.

Lemma api_error_not_injected_witness :
  np_concatenate (audio_chunks long_world) = Some session_a
  /\ ~ (duration session_a < 0.3)%Q
  /\ api down_env = ApiRaises network_down
  /\ injections (snd (_process_recording tmp down_env long_world)) = injections long_world.
Proof.
  assert (L : ~ (duration session_a < 0.3)%Q).
  { intros H; apply duration_short in H; vm_compute in H; lia. }
  split; [reflexivity|]. split; [exact L|]. split; [reflexivity|].
  apply (api_error_not_injected tmp down_env long_world session_a network_down);
    [reflexivity | exact L | reflexivity].
Defined.

(** X4: the thread calls [transcribe] exactly when the buffer holds at
    least one block and the blocks together hold 4800 frames or more (0.3 s
    at 16 kHz), and then once, on their concatenation; a buffer of exactly
    4800 frames is transcribed. *)
Theorem transcribed_from_4800_frames tempdir env w :
  transcribe_args (snd (_process_recording tempdir env w))
  = transcribe_args w
    ++ (if truthy (audio_chunks w) && (4800 <=? length (concat (audio_chunks w)))%nat
        then [concat (audio_chunks w)] else []).
Proof.
  rewrite process_recording_transcribe_args.
  destruct (audio_chunks w) as [|c cs]; [reflexivity|].
  cbn [np_concatenate truthy andb].
  destruct (Qltb (duration (concat (c :: cs))) 0.3) eqn:Hq.
  - apply Qltb_lt, duration_short in Hq.
    destruct (Nat.leb_spec 4800 (length (concat (c :: cs)))); [lia | reflexivity].
  - apply not_true_iff_false in Hq. rewrite Qltb_lt, duration_short in Hq.
    destruct (Nat.leb_spec 4800 (length (concat (c :: cs)))); [reflexivity | lia].
Qed.

(** ** Text injection *)

(** X5: [inject_text] raises only when the paste chord cannot be simulated:
    failures of [pbpaste] and [pbcopy] are swallowed by [_get_clipboard] and
    [_set_clipboard]. *)
Theorem inject_text_raises_only_on_paste env text w :
  fst (inject_text env text w)
  = match paste_err env with Some e => Raise e | None => Ret tt end.
Proof. destruct env as [[r|] [wr|] [p|] [rs|]]; reflexivity. Qed.


(** X7: when the clipboard cannot be read, the original is taken to be the
    empty string: after a paste that went through, the clipboard is empty,
    whatever it held before. *)
Theorem inject_text_unreadable_clipboard env text w e :
  read_err env = Some e ->
  paste_err env = None ->
  restore_err env = None ->
  fst (inject_text env text w) = Ret tt
  /\ clipboard (snd (inject_text env text w)) = [].
Proof.
  destruct env as [r [wr|] p rs]; cbn [read_err paste_err restore_err];
    intros -> -> ->; split; reflexivity.
Qed.

Lemma inject_text_unreadable_clipboard_witness :
  read_err read_fails = Some (SubprocessError (lit "timed out after 2 seconds"))
  /\ paste_err read_fails = None /\ restore_err read_fails = None
  /\ clipboard fresh = lit "orig"
  /\ clipboard (snd (inject_text read_fails (lit "hello") fresh)) = [].
Proof.
  split; [reflexivity|]. split; [reflexivity|]. split; [reflexivity|].
  split; [reflexivity|].
  apply (inject_text_unreadable_clipboard read_fails (lit "hello") fresh
           (SubprocessError (lit "timed out after 2 seconds"))); reflexivity.
Defined.

(** X8: when the paste chord raises after the text was written, the
    clipboard is not restored: it holds the text. *)
Theorem inject_text_paste_failure env text w e :
  write_err env = None ->
  paste_err env = Some e ->
  fst (inject_text env text w) = Raise e
  /\ clipboard (snd (inject_text env text w)) = text.
Proof.
  destruct env as [[r|] wr p rs]; cbn [write_err paste_err];
    intros -> ->; split; reflexivity.
Qed.

Lemma inject_text_paste_failure_witness :
  write_err paste_fails = None
  /\ paste_err paste_fails = Some (InjectionError (lit "not trusted"))
  /\ clipboard (snd (inject_text paste_fails (lit "hello") fresh)) = lit "hello".
Proof.
  split; [reflexivity|]. split; [reflexivity|].
  apply (inject_text_paste_failure paste_fails (lit "hello") fresh
           (InjectionError (lit "not trusted"))); reflexivity.
Defined.

(** ** More on [transcribe] *)

Lemma lstrip_whitespace (s : str) : forallb isspace s = true -> lstrip s = [].
Proof.
  induction s as [|c s IH]; [reflexivity|]. cbn.
  destruct (isspace c); [exact IH | discriminate].
Qed.

Lemma strip_nil_iff (s : str) : strip s = [] <-> forallb isspace s = true.
Proof.
  split.
  - intros H. destruct (strip_split s) as (pre & post & Hs & Hpre & Hpost).
    rewrite H in Hs. rewrite Hs. cbn [app]. rewrite forallb_app, Hpre, Hpost. reflexivity.
  - intros H. unfold strip, rstrip. rewrite (lstrip_whitespace s H). reflexivity.
Qed.

(** X9: [transcribe] returns the empty string exactly when the transcript of
    the API consists of whitespace only (in particular when it is empty). *)
Theorem transcribe_empty_iff_whitespace tempdir r audio w :
  fst (transcribe tempdir (ApiReturns r) audio w) = Ret []
  <-> forallb isspace (response_body r) = true.
Proof.
  rewrite transcribe_success_removes_file. cbn [fst].
  assert (E : result_text r = strip (response_body r)) by (destruct r; reflexivity).
  rewrite E, <- strip_nil_iff. split; [intros [= H]; exact H | intros ->; reflexivity].
Qed.

(** X10: what [transcribe] does to the files: every other path is left
    alone; the fixed path is overwritten with the recording and, when the API
    answered, removed, so that a file that was there before is gone too. *)
Theorem transcribe_files tempdir api audio w :
  files (snd (transcribe tempdir api audio w))
  = match api with
    | ApiReturns _ => delete (tmp_path tempdir) (files w)
    | ApiRaises _ => <[tmp_path tempdir := Wav SAMPLE_RATE audio]> (files w)
    end.
Proof.
  destruct api as [r|e].
  - rewrite transcribe_success_removes_file. reflexivity.
  - rewrite transcribe_api_error. reflexivity.
Qed.

(** X11: every call of [transcribe] makes exactly one request to the API,
    for the configured model and plain-text format, and the file it uploads
    holds the samples it was given at 16 kHz. *)
Theorem transcribe_one_request tempdir api audio w :
  requests (snd (transcribe tempdir api audio w))
  = requests w ++ [EvApiRequest (lit "gpt-4o-mini-transcribe") (Wav 16000 audio) (lit "text")].
Proof.
  destruct api as [r|e];
    [rewrite transcribe_success_removes_file | rewrite transcribe_api_error];
    unfold requests; cbn [snd trace emit with_files];
    rewrite !List.filter_app; cbn; rewrite ?app_nil_r; reflexivity.
Qed.

Lemma transcribe_upload_run tempdir api f w :
  files w !! tmp_path tempdir = Some f ->
  transcribe_upload tempdir api w
  = (match api with ApiReturns r => Ret r | ApiRaises e => Raise e end,
     emit (EvApiRequest MODEL f (lit "text")) w).
Proof.
  intros H. unfold transcribe_upload, bind, open_rb. fold (tmp_path tempdir).
  rewrite H. destruct api; reflexivity.
Qed.

Lemma transcribe_upload_missing tempdir api w :
  files w !! tmp_path tempdir = None ->
  transcribe_upload tempdir api w = (Raise (FileNotFoundError (tmp_path tempdir)), w).
Proof.
  intros H. unfold transcribe_upload, bind, open_rb. fold (tmp_path tempdir).
  rewrite H. reflexivity.
Qed.

Lemma transcribe_finish_run tempdir result f w :
  files w !! tmp_path tempdir = Some f ->
  transcribe_finish tempdir result w
  = (Ret (result_text result),
     emit (EvRemove (tmp_path tempdir)) (with_files (delete (tmp_path tempdir) (files w)) w)).
Proof.
  intros H. unfold transcribe_finish, bind, os_remove. fold (tmp_path tempdir).
  rewrite H. reflexivity.
Qed.

(** X12: two overlapping calls share the file, so the one that finishes
    first removes it under the other: when the second call has written but
    not yet uploaded while the first uploads and removes, the second fails
    with [FileNotFoundError] at [open]; the one upload made carried the
    samples of the second call, those of the first are never uploaded. *)
Theorem overlap_breaks_second_call tempdir audio1 audio2 r1 api2 w :
  fst ((transcribe_write tempdir audio1 ;;
        transcribe_write tempdir audio2 ;;
        result1 <- transcribe_upload tempdir (ApiReturns r1) ;;
        transcribe_finish tempdir result1 ;;
        transcribe_upload tempdir api2) w)
  = Raise (FileNotFoundError (tmp_path tempdir))
  /\ uploads (snd ((transcribe_write tempdir audio1 ;;
                    transcribe_write tempdir audio2 ;;
                    result1 <- transcribe_upload tempdir (ApiReturns r1) ;;
                    transcribe_finish tempdir result1 ;;
                    transcribe_upload tempdir api2) w))
     = uploads w ++ [Wav SAMPLE_RATE audio2].
Proof.
  set (w1 := snd (transcribe_write tempdir audio1 w)).
  set (w2 := snd (transcribe_write tempdir audio2 w1)).
  assert (F2 : files w2 !! tmp_path tempdir = Some (Wav SAMPLE_RATE audio2))
    by apply lookup_insert_eq.
  set (w3 := emit (EvApiRequest MODEL (Wav SAMPLE_RATE audio2) (lit "text")) w2).
  assert (F3 : files w3 !! tmp_path tempdir = Some (Wav SAMPLE_RATE audio2)) by exact F2.
  set (w4 := emit (EvRemove (tmp_path tempdir))
               (with_files (delete (tmp_path tempdir) (files w3)) w3)).
  assert (F4 : files w4 !! tmp_path tempdir = None) by apply lookup_delete_eq.
  assert (E : (transcribe_write tempdir audio1 ;;
               transcribe_write tempdir audio2 ;;
               result1 <- transcribe_upload tempdir (ApiReturns r1) ;;
               transcribe_finish tempdir result1 ;;
               transcribe_upload tempdir api2) w
              = (Raise (FileNotFoundError (tmp_path tempdir)), w4)).
  { unfold bind at 1. change (transcribe_write tempdir audio1 w) with (Ret tt, w1).
    unfold bind at 1. change (transcribe_write tempdir audio2 w1) with (Ret tt, w2).
    unfold bind at 1. rewrite (transcribe_upload_run _ _ _ _ F2). fold w3.
    unfold bind at 1. rewrite (transcribe_finish_run _ _ _ _ F3). fold w4.
    apply transcribe_upload_missing, F4. }
  rewrite E. split; [reflexivity|].
  unfold uploads. cbn [snd trace w4 w3 w2 w1 emit with_files transcribe_write wavfile_write modify].
  rewrite !omap_app. cbn. rewrite ?app_nil_r. reflexivity.
Qed.

(** ** The controller and the stream *)

Lemma on_toggle_idle dev w :
  is_recording w = false ->
  on_toggle dev w = start_recording dev (with_is_recording true w).
Proof. intros H. unfold on_toggle. rewrite bind_get, H. reflexivity. Qed.

Lemma on_toggle_recording dev w :
  is_recording w = true ->
  on_toggle dev w = (stop_recording ;; thread_start) (with_is_recording false w).
Proof. intros H. unfold on_toggle. rewrite bind_get, H. reflexivity. Qed.

(** X13: a toggle in Recording always returns normally and starts exactly
    one background thread, also when nothing was recorded; a toggle in Idle
    starts none. *)
Theorem on_toggle_threads dev w :
  threads (snd (on_toggle dev w))
  = (if is_recording w then S (threads w) else threads w)
  /\ (if is_recording w then fst (on_toggle dev w) = Ret tt
      else fst (on_toggle dev w)
           = match device_error dev with Some e => Raise e | None => Ret tt end).
Proof.
  destruct (is_recording w) eqn:Hr.
  - split; [apply on_toggle_stop, Hr|].
    rewrite on_toggle_recording by exact Hr. unfold bind.
    destruct (stop_recording_state (with_is_recording false w)) as (R & _).
    destruct (stop_recording (with_is_recording false w)) as [[[]|e] w'];
      [reflexivity | discriminate].
  - rewrite on_toggle_idle by exact Hr. split; [|apply start_recording_raises].
    destruct (start_recording_state dev (with_is_recording true w)) as (_ & T & _).
    exact T.
Qed.

Lemma stream_opens_emit e w :
  stream_opens (emit e w)
  = (stream_opens w + match e with EvStreamOpen _ => 1 | _ => 0 end)%nat.
Proof.
  unfold stream_opens, emit; cbn [trace]. rewrite List.filter_app, length_app.
  destruct e; reflexivity.
Qed.

Lemma stream_closes_emit e w :
  stream_closes (emit e w)
  = (stream_closes w + match e with EvStreamClose => 1 | _ => 0 end)%nat.
Proof.
  unfold stream_closes, emit; cbn [trace]. rewrite List.filter_app, length_app.
  destruct e; reflexivity.
Qed.

Lemma stderr_lines_emit e w :
  stderr_lines (emit e w)
  = stderr_lines w ++ match e with EvPrint Stderr l => [l] | _ => [] end.
Proof.
  unfold stderr_lines, emit; cbn [trace]. rewrite omap_app.
  destruct e as [| | [] ? | | | | | | | | | | | |]; reflexivity.
Qed.

Lemma requests_emit e w :
  requests (emit e w)
  = requests w ++ match e with EvApiRequest _ _ _ => [e] | _ => [] end.
Proof.
  unfold requests, emit; cbn [trace]. rewrite List.filter_app.
  destruct e; reflexivity.
Qed.

Lemma notifications_emit e w :
  notifications (emit e w)
  = notifications w ++ match e with EvNotify t m => [(t, m)] | _ => [] end.
Proof.
  unfold notifications, emit; cbn [trace]. rewrite omap_app.
  destruct e; reflexivity.
Qed.

Ltac frame_side ::=
  intros;
  first [ reflexivity
        | rewrite ?transcribe_args_emit, ?wav_paths_emit, ?uploads_emit, ?injections_emit,
            ?stream_opens_emit, ?stream_closes_emit, ?stderr_lines_emit, ?requests_emit, ?notifications_emit;
          cbn; rewrite ?app_nil_r, ?Nat.add_0_r; reflexivity ].

Lemma stream_counts_with_stream s w :
  stream_opens (with_stream s w) = stream_opens w
  /\ stream_closes (with_stream s w) = stream_closes w.
Proof. split; reflexivity. Qed.

Lemma stream_counts_with_audio_chunks c w :
  stream_opens (with_audio_chunks c w) = stream_opens w
  /\ stream_closes (with_audio_chunks c w) = stream_closes w.
Proof. split; reflexivity. Qed.

Ltac count_streams :=
  repeat first
    [ rewrite stream_opens_emit | rewrite stream_closes_emit
    | rewrite (proj1 (stream_counts_with_stream _ _))
    | rewrite (proj2 (stream_counts_with_stream _ _))
    | rewrite (proj1 (stream_counts_with_audio_chunks _ _))
    | rewrite (proj2 (stream_counts_with_audio_chunks _ _)) ];
  lia.

Lemma start_recording_counts dev w :
  stream_opens (snd (start_recording dev w))
  = (stream_opens w + match dev with DevOpenFails _ => 0 | _ => 1 end)%nat
  /\ stream_closes (snd (start_recording dev w)) = stream_closes w.
Proof.
  assert (C : preserves stream_closes (start_recording dev)) by frame.
  split; [|apply C].
  destruct dev; unfold start_recording, sd_InputStream, stream_start, play_sound, notify,
    print, bind, modify, get, ret, raise; cbn [snd fst stream with_stream emit with_audio_chunks];
    count_streams.
Qed.

Lemma stop_recording_counts w :
  stream_opens (snd (stop_recording w)) = stream_opens w
  /\ stream_closes (snd (stop_recording w))
     = (stream_closes w + match stream w with Some _ => 1 | None => 0 end)%nat.
Proof.
  assert (C : preserves stream_opens stop_recording) by frame.
  split; [apply C|].
  unfold stop_recording. rewrite bind_get.
  destruct (stream w) as [s|];
    unfold play_sound, notify, print, bind, modify, ret; cbn [snd fst];
    count_streams.
Qed.

Lemma step_stream_inv tempdir e w : stream_inv w -> stream_inv (step tempdir e w).
Proof.
  intros (I1 & I2 & I3). destruct e as [dev|indata status|env]; unfold step.
  - destruct (is_recording w) eqn:Hr.
    + rewrite on_toggle_recording by exact Hr.
      assert (P1 : preserves stream thread_start) by frame.
      assert (P2 : preserves stream_opens thread_start) by frame.
      assert (P3 : preserves stream_closes thread_start) by frame.
      destruct (stop_recording_state (with_is_recording false w)) as (R & S & _).
      destruct (stop_recording_counts (with_is_recording false w)) as (O & C).
      unfold bind. revert R S O C.
      destruct (stop_recording (with_is_recording false w)) as [[[]|e] w'];
        cbn [fst snd]; intros R S O C; [|discriminate].
      change (stream_opens (with_is_recording false w)) with (stream_opens w) in O.
      change (stream_closes (with_is_recording false w)) with (stream_closes w) in C.
      change (stream (with_is_recording false w)) with (stream w) in C.
      split; [intros _; rewrite P1; exact S|].
      split; [intros s Hs; rewrite P1, S in Hs; discriminate|].
      rewrite P1, P2, P3, S, O, C, I3. lia.
    + rewrite on_toggle_idle by exact Hr. specialize (I1 eq_refl).
      pose proof (start_recording_is_recording dev (with_is_recording true w)) as R.
      destruct (start_recording_state dev (with_is_recording true w)) as (_ & _ & _ & S).
      destruct (start_recording_counts dev (with_is_recording true w)) as (O & C).
      change (stream_opens (with_is_recording true w)) with (stream_opens w) in O.
      change (stream_closes (with_is_recording true w)) with (stream_closes w) in C.
      change (stream (with_is_recording true w)) with (stream w) in S.
      rewrite I1 in I3, S.
      split; [rewrite R; discriminate|].
      split; [|rewrite O, C, I3; destruct dev; rewrite S; lia].
      intros s Hs. destruct dev; rewrite S in Hs; try discriminate;
        injection Hs as <-; auto.
  - destruct (stream w) as [s|] eqn:Hs in |- *; [destruct (active s) eqn:Ha|].
    + assert (P0 : preserves is_recording (_audio_callback indata status)) by frame.
      assert (P1 : preserves stream (_audio_callback indata status)) by frame.
      assert (P2 : preserves stream_opens (_audio_callback indata status)) by frame.
      assert (P3 : preserves stream_closes (_audio_callback indata status)) by frame.
      split; [rewrite P0, P1; exact I1|].
      split; [intros s' Hs'; rewrite P1 in Hs'; apply I2, Hs'|].
      rewrite P1, P2, P3. exact I3.
    + unfold stream_inv. auto.
    + unfold stream_inv. auto.
  - destruct (threads w) as [|n]; [unfold stream_inv; auto|].
    assert (P0 : preserves is_recording (_process_recording tempdir env)) by frame.
    assert (P1 : preserves stream (_process_recording tempdir env)) by frame.
    assert (P2 : preserves stream_opens (_process_recording tempdir env)) by frame.
    assert (P3 : preserves stream_closes (_process_recording tempdir env)) by frame.
    change (is_recording w) with (is_recording (with_threads n w)) in I1.
    change (stream w) with (stream (with_threads n w)) in I1, I2, I3.
    change (stream_opens w) with (stream_opens (with_threads n w)) in I3.
    change (stream_closes w) with (stream_closes (with_threads n w)) in I3.
    split; [rewrite P0, P1; exact I1|].
    split; [intros s' Hs'; rewrite P1 in Hs'; apply I2, Hs'|].
    rewrite P1, P2, P3. exact I3.
Qed.

Lemma reachable_stream_inv tempdir w : reachable tempdir w -> stream_inv w.
Proof.
  intros (clip & fs & sched & ->).
  induction sched as [|e sched IH] using rev_ind.
  - split; [reflexivity|]. split; [intros s [=] | reflexivity].
  - rewrite run_snoc. apply step_stream_inv, IH.
Qed.

(** X14: whenever the controller is Idle, no input stream is open: the
    microphone is held only between a start and the next stop. *)
Theorem idle_holds_no_stream tempdir w :
  reachable tempdir w ->
  controller_state w = Idle ->
  stream w = None.
Proof.
  intros R H. apply (reachable_stream_inv tempdir w R).
  unfold controller_state in H. destruct (is_recording w); [discriminate | reflexivity].
Qed.

Lemma idle_holds_no_stream_witness :
  reachable tmp (run tmp busy_schedule fresh)
  /\ controller_state (run tmp busy_schedule fresh) = Idle
  /\ stream (run tmp busy_schedule fresh) = None.
Proof.
  assert (R : reachable tmp (run tmp busy_schedule fresh)).
  { exists (lit "orig"), ∅, busy_schedule. reflexivity. }
  split; [exact R|]. split; [vm_compute; reflexivity|].
  apply (idle_holds_no_stream tmp _ R). vm_compute. reflexivity.
Defined.

(** X15: no input stream is leaked: at any time every stream that was opened
    has been closed, except the one the global [stream] refers to; and that
    one is a 16 kHz, one-channel, int16 stream. *)
Theorem streams_opened_are_closed tempdir w :
  reachable tempdir w ->
  stream_opens w
  = (stream_closes w + match stream w with Some _ => 1 | None => 0 end)%nat
  /\ match stream w with
     | Some s => samplerate s = 16000 /\ channels s = 1 /\ dtype s = lit "int16"
     | None => True
     end.
Proof.
  intros R. destruct (reachable_stream_inv tempdir w R) as (_ & I2 & I3).
  split; [exact I3|]. destruct (stream w) as [s|]; [apply I2; reflexivity | exact I].
Qed.

Lemma streams_opened_are_closed_witness :
  reachable tmp (run tmp busy_schedule fresh)
  /\ stream_opens (run tmp busy_schedule fresh)
     = (stream_closes (run tmp busy_schedule fresh)
        + match stream (run tmp busy_schedule fresh) with Some _ => 1 | None => 0 end)%nat.
Proof.
  assert (R : reachable tmp (run tmp busy_schedule fresh)).
  { exists (lit "orig"), ∅, busy_schedule. reflexivity. }
  split; [exact R|]. apply (streams_opened_are_closed tmp _ R).
Defined.

(** ** Recording and the rest of the world *)

Lemma on_toggle_frame {B} (f : World -> B) dev :
  (forall b w, f (with_is_recording b w) = f w) ->
  (forall d, preserves f (start_recording d)) ->
  preserves f stop_recording -> preserves f thread_start ->
  preserves f (on_toggle dev).
Proof.
  intros Hb Hstart Hstop Hth w. unfold on_toggle. rewrite bind_get.
  destruct (is_recording w); cbn [negb]; rewrite bind_modify.
  - assert (P : preserves f (stop_recording ;; thread_start))
      by (apply preserves_bind; auto).
    rewrite P. apply Hb.
  - rewrite Hstart. apply Hb.
Qed.

Lemma recording_frame_toggle dev w :
  clipboard (snd (on_toggle dev w)) = clipboard w
  /\ files (snd (on_toggle dev w)) = files w
  /\ injections (snd (on_toggle dev w)) = injections w
  /\ requests (snd (on_toggle dev w)) = requests w
  /\ uploads (snd (on_toggle dev w)) = uploads w.
Proof.
  assert (P1 : preserves clipboard (on_toggle dev))
    by (apply on_toggle_frame; [reflexivity | intros d | |]; frame).
  assert (P2 : preserves files (on_toggle dev))
    by (apply on_toggle_frame; [reflexivity | intros d | |]; frame).
  assert (P3 : preserves injections (on_toggle dev))
    by (apply on_toggle_frame; [reflexivity | intros d | |]; frame).
  assert (P4 : preserves requests (on_toggle dev))
    by (apply on_toggle_frame; [reflexivity | intros d | |]; frame).
  assert (P5 : preserves uploads (on_toggle dev))
    by (apply on_toggle_frame; [reflexivity | intros d | |]; frame).
  auto.
Qed.

Lemma recording_frame_callback indata status w :
  clipboard (snd (_audio_callback indata status w)) = clipboard w
  /\ files (snd (_audio_callback indata status w)) = files w
  /\ injections (snd (_audio_callback indata status w)) = injections w
  /\ requests (snd (_audio_callback indata status w)) = requests w
  /\ uploads (snd (_audio_callback indata status w)) = uploads w.
Proof.
  assert (P1 : preserves clipboard (_audio_callback indata status)) by frame.
  assert (P2 : preserves files (_audio_callback indata status)) by frame.
  assert (P3 : preserves injections (_audio_callback indata status)) by frame.
  assert (P4 : preserves requests (_audio_callback indata status)) by frame.
  assert (P5 : preserves uploads (_audio_callback indata status)) by frame.
  auto.
Qed.

(** X16: toggling and recording never touch the clipboard or the files, make
    no request to the API and press no key: only the background thread
    does. *)
Theorem recording_leaves_clipboard_and_files :
  (forall dev w,
     clipboard (snd (on_toggle dev w)) = clipboard w
     /\ files (snd (on_toggle dev w)) = files w
     /\ injections (snd (on_toggle dev w)) = injections w
     /\ requests (snd (on_toggle dev w)) = requests w)
  /\ (forall indata status w,
        clipboard (snd (_audio_callback indata status w)) = clipboard w
        /\ files (snd (_audio_callback indata status w)) = files w
        /\ injections (snd (_audio_callback indata status w)) = injections w
        /\ requests (snd (_audio_callback indata status w)) = requests w).
Proof.
  split.
  - intros dev w. destruct (recording_frame_toggle dev w) as (A & B & C & D & _). auto.
  - intros indata status w.
    destruct (recording_frame_callback indata status w) as (A & B & C & D & _). auto.
Qed.

(** X17: blocks are buffered in the order they arrive and none is dropped,
    flagged or not; each flagged block adds one line to stderr. *)
Theorem blocks_buffered_in_order tempdir blocks w s :
  stream w = Some s -> active s = true ->
  audio_chunks (run tempdir (deliver blocks) w) = audio_chunks w ++ List.map fst blocks
  /\ stderr_lines (run tempdir (deliver blocks) w)
     = stderr_lines w
       ++ omap (fun b => match snd b with
                         | Some st => Some (lit "sounddevice status: " ++ st)
                         | None => None
                         end) blocks.
Proof.
  intros Hs Ha. split; [eapply deliver_state; eassumption|].
  revert w Hs. induction blocks as [|[indata status] blocks IH]; intros w Hs.
  - cbn. rewrite app_nil_r. reflexivity.
  - change (run tempdir (deliver ((indata, status) :: blocks)) w)
      with (run tempdir (deliver blocks) (step tempdir (AudioBlock indata status) w)).
    cbn [step]. rewrite Hs, Ha.
    destruct (audio_callback_state indata status w) as (_ & S & _).
    rewrite IH by congruence.
    assert (L : stderr_lines (snd (_audio_callback indata status w))
                = stderr_lines w ++ match status with
                                    | Some st => [lit "sounddevice status: " ++ st]
                                    | None => []
                                    end).
    { destruct status; unfold _audio_callback, print, bind, modify, get, ret; cbn [snd fst].
      - change (stderr_lines (emit (EvPrint Stderr (lit "sounddevice status: " ++ l)) w)
                = stderr_lines w ++ [lit "sounddevice status: " ++ l]).
        apply stderr_lines_emit.
      - symmetry. apply app_nil_r. }
    rewrite L, <- app_assoc. destruct status; reflexivity.
Qed.

Lemma blocks_buffered_in_order_witness :
  stream (run tmp [Toggle DevOk] fresh) = Some (MkStream 16000 1 (lit "int16") true)
  /\ audio_chunks (run tmp (deliver flagged_blocks) (run tmp [Toggle DevOk] fresh))
     = audio_chunks (run tmp [Toggle DevOk] fresh) ++ [short_audio; short_audio].
Proof.
  split; [reflexivity|].
  apply (blocks_buffered_in_order tmp flagged_blocks (run tmp [Toggle DevOk] fresh)
           (MkStream 16000 1 (lit "int16") true)); reflexivity.
Defined.

(** X18: after a start that failed, the next toggle still plays the stop cue
    and starts a background thread; the thread finds no audio, says so on
    stderr and does nothing else; the controller is Idle with no stream. *)
Theorem failed_start_then_stop tempdir w dev e dev' env :
  is_recording w = false ->
  device_error dev = Some e ->
  last (trace (run tempdir [Toggle dev; Toggle dev'; RunThread env] w))
  = Some (EvPrint Stderr (lit "No audio captured."))
  /\ transcribe_args (run tempdir [Toggle dev; Toggle dev'; RunThread env] w)
     = transcribe_args w
  /\ injections (run tempdir [Toggle dev; Toggle dev'; RunThread env] w) = injections w
  /\ is_recording (run tempdir [Toggle dev; Toggle dev'; RunThread env] w) = false
  /\ stream (run tempdir [Toggle dev; Toggle dev'; RunThread env] w) = None.
Proof.
  intros Hr He.
  change (run tempdir [Toggle dev; Toggle dev'; RunThread env] w)
    with (step tempdir (RunThread env) (snd (on_toggle dev' (snd (on_toggle dev w))))).
  set (w1 := snd (on_toggle dev w)).
  assert (H1 : is_recording w1 = true /\ audio_chunks w1 = []
               /\ transcribe_args w1 = transcribe_args w /\ injections w1 = injections w).
  { unfold w1. rewrite on_toggle_flips, Hr.
    destruct (recording_frame_toggle dev w) as (_ & _ & I & _).
    rewrite on_toggle_idle by exact Hr.
    destruct (start_recording_state dev (with_is_recording true w)) as (C & _ & T & _).
    rewrite on_toggle_idle in I by exact Hr. auto. }
  destruct H1 as (R1 & C1 & T1 & I1).
  set (w2 := snd (on_toggle dev' w1)).
  destruct (on_toggle_stop dev' w1 R1) as (C2 & Th2 & T2).
  destruct (recording_frame_toggle dev' w1) as (_ & _ & I2 & _).
  assert (S2 : stream w2 = None /\ is_recording w2 = false).
  { unfold w2. rewrite on_toggle_flips, R1. split; [|reflexivity].
    rewrite on_toggle_recording by exact R1.
    assert (P : preserves stream thread_start) by frame.
    destruct (stop_recording_state (with_is_recording false w1)) as (R & S & _).
    unfold bind. revert R S.
    destruct (stop_recording (with_is_recording false w1)) as [[[]|x] w'];
      cbn [fst snd]; intros R S; [|discriminate].
    rewrite P. exact S. }
  destruct S2 as (S2 & R2).
  fold w2 in C2, Th2, T2, I2.
  cbn [step]. rewrite Th2.
  rewrite process_recording_no_audio by (cbn [audio_chunks with_threads]; congruence).
  cbn [snd]. split; [apply last_snoc|].
  rewrite transcribe_args_emit, injections_emit. cbn [is_injection]. rewrite !app_nil_r.
  repeat split.
  - change (transcribe_args w2 = transcribe_args w). congruence.
  - change (injections w2 = injections w). congruence.
  - exact R2.
  - exact S2.
Qed.

Lemma failed_start_then_stop_witness :
  is_recording fresh = false
  /\ device_error no_device = Some (PortAudioError (lit "no input device"))
  /\ last (trace (run tmp [Toggle no_device; Toggle DevOk; RunThread hello_env] fresh))
     = Some (EvPrint Stderr (lit "No audio captured.")).
Proof.
  split; [reflexivity|]. split; [reflexivity|].
  apply (failed_start_then_stop tmp fresh no_device
           (PortAudioError (lit "no input device")) DevOk hello_env); reflexivity.
Defined.

(** ** A dictation from start to paste *)


(** The thread once [transcribe] has returned a transcript. *)
Lemma process_recording_transcript tempdir env w audio r :
  np_concatenate (audio_chunks w) = Some audio ->
  ~ (duration audio < 0.3)%Q ->
  api env = ApiReturns r ->
  result_text r <> [] ->
  _process_recording tempdir env w
  = try_except
      (inject_text (inj env) (result_text r))
      (fun e => print Stderr ([0x274C]%N ++ lit " Transcription error: " ++ exn_str e))
      (emit (EvNotify (lit "Dictation")
               ([0x2705; 0x20]%N ++ firstn 80 (result_text r)
                ++ (if (80 <? length (result_text r))%nat then [0x2026]%N else [])))
         (emit (EvPrint Stdout ([0x2705]%N ++ lit " Transcribed: " ++ result_text r))
            (emit (EvRemove (tmp_path tempdir))
               (with_files (delete (tmp_path tempdir) (files w))
                  (emit (EvApiRequest MODEL (Wav SAMPLE_RATE audio) (lit "text"))
                     (emit (EvWavWrite (tmp_path tempdir) SAMPLE_RATE audio) w)))))).
Proof.
  intros Hcat Hlong Hapi Htext.
  rewrite (process_recording_long tempdir env w audio Hcat Hlong).
  rewrite try_except_bind, Hapi, transcribe_success_removes_file.
  destruct (result_text r) as [|c t] eqn:Ht; [congruence|].
  reflexivity.
Qed.



(** X20: the banner that announces a transcript shows at most its first 80
    characters, followed by an ellipsis when something was cut; a transcript
    of 80 characters or less is shown whole.  This holds whatever the
    clipboard and the keyboard do afterwards. *)
Theorem transcript_notification tempdir env w audio r :
  np_concatenate (audio_chunks w) = Some audio ->
  ~ (duration audio < 0.3)%Q ->
  api env = ApiReturns r ->
  strip (response_body r) <> [] ->
  exists preview,
    notifications (snd (_process_recording tempdir env w))
    = notifications w ++ [(lit "Dictation", [0x2705; 0x20]%N ++ preview)]
    /\ preview = (if (80 <? length (strip (response_body r)))%nat
                  then firstn 80 (strip (response_body r)) ++ [0x2026]%N
                  else strip (response_body r))
    /\ (length preview <= 81)%nat.
Proof.
  intros Hcat Hlong Hapi Htext.
  assert (Et : result_text r = strip (response_body r)) by (destruct r; reflexivity).
  rewrite (process_recording_transcript tempdir env w audio r Hcat Hlong Hapi)
    by (rewrite Et; exact Htext).
  rewrite Et. set (text := strip (response_body r)).
  exists (firstn 80 text ++ (if (80 <? length text)%nat then [0x2026]%N else [])).
  split; [|split].
  - match goal with
    | |- notifications (snd (?m ?W)) = _ =>
        assert (P : preserves notifications m) by frame; rewrite P
    end.
    rewrite notifications_emit.
    change (notifications
              (emit (EvPrint Stdout ([0x2705]%N ++ lit " Transcribed: " ++ text))
                 (emit (EvRemove (tmp_path tempdir))
                    (emit (EvApiRequest MODEL (Wav SAMPLE_RATE audio) (lit "text"))
                       (emit (EvWavWrite (tmp_path tempdir) SAMPLE_RATE audio) w))))
            ++ [(lit "Dictation",
                 [0x2705; 0x20]%N ++ firstn 80 text
                 ++ (if (80 <? length text)%nat then [0x2026]%N else []))]
            = notifications w
              ++ [(lit "Dictation",
                   [0x2705; 0x20]%N ++ firstn 80 text
                   ++ (if (80 <? length text)%nat then [0x2026]%N else []))]).
    rewrite !notifications_emit, !app_nil_r. reflexivity.
  - destruct (Nat.ltb_spec 80 (length text)); [reflexivity|].
    rewrite app_nil_r. apply firstn_all2. lia.
  - rewrite length_app, length_firstn.
    destruct (80 <? length text)%nat; cbn [length]; lia.
Qed.

Lemma transcript_notification_witness :
  np_concatenate (audio_chunks long_world) = Some session_a
  /\ ~ (duration session_a < 0.3)%Q
  /\ api hello_env = ApiReturns (RespStr (lit " hello "))
  /\ strip (response_body (RespStr (lit " hello "))) <> []
  /\ exists preview,
       notifications (snd (_process_recording tmp hello_env long_world))
       = notifications long_world ++ [(lit "Dictation", [0x2705; 0x20]%N ++ preview)]
       /\ preview = (if (80 <? length (strip (response_body (RespStr (lit " hello ")))))%nat
                     then firstn 80 (strip (response_body (RespStr (lit " hello "))))
                          ++ [0x2026]%N
                     else strip (response_body (RespStr (lit " hello "))))
       /\ (length preview <= 81)%nat.
Proof.
  assert (L : ~ (duration session_a < 0.3)%Q).
  { intros H; apply duration_short in H; vm_compute in H; lia. }
  assert (T : strip (response_body (RespStr (lit " hello "))) <> []) by discriminate.
  split; [reflexivity|]. split; [exact L|]. split; [reflexivity|]. split; [exact T|].
  apply (transcript_notification tmp hello_env long_world session_a
           (RespStr (lit " hello ")) eq_refl L eq_refl T).
Defined.

(** X21: when the transcript is on the clipboard and the paste chord then
    raises, the thread reports it as a transcription error and returns; the
    clipboard is not restored, it keeps the transcript. *)
Theorem paste_failure_keeps_transcript tempdir env w audio r e :
  np_concatenate (audio_chunks w) = Some audio ->
  ~ (duration audio < 0.3)%Q ->
  api env = ApiReturns r ->
  strip (response_body r) <> [] ->
  write_err (inj env) = None ->
  paste_err (inj env) = Some e ->
  fst (_process_recording tempdir env w) = Ret tt
  /\ clipboard (snd (_process_recording tempdir env w)) = strip (response_body r)
  /\ last (trace (snd (_process_recording tempdir env w)))
     = Some (EvPrint Stderr ([0x274C]%N ++ lit " Transcription error: " ++ exn_str e)).
Proof.
  intros Hcat Hlong Hapi Htext Hw Hp.
  assert (Et : result_text r = strip (response_body r)) by (destruct r; reflexivity).
  rewrite (process_recording_transcript tempdir env w audio r Hcat Hlong Hapi)
    by (rewrite Et; exact Htext).
  rewrite Et. destruct (inj env) as [[rd|] wr p rs]; cbn [write_err paste_err] in Hw, Hp;
    subst wr p; repeat split; apply last_snoc.
Qed.

Lemma paste_failure_keeps_transcript_witness :
  np_concatenate (audio_chunks long_world) = Some session_a
  /\ ~ (duration session_a < 0.3)%Q
  /\ strip (response_body (RespStr (lit " hello "))) <> []
  /\ clipboard long_world = lit "orig"
  /\ clipboard (snd (_process_recording tmp
                       (MkTaskEnv (ApiReturns (RespStr (lit " hello "))) paste_fails)
                       long_world))
     = lit "hello".
Proof.
  assert (L : ~ (duration session_a < 0.3)%Q).
  { intros H; apply duration_short in H; vm_compute in H; lia. }
  assert (T : strip (response_body (RespStr (lit " hello "))) <> []) by discriminate.
  split; [reflexivity|]. split; [exact L|]. split; [exact T|]. split; [reflexivity|].
  apply (paste_failure_keeps_transcript tmp
           (MkTaskEnv (ApiReturns (RespStr (lit " hello "))) paste_fails)
           long_world session_a (RespStr (lit " hello "))
           (InjectionError (lit "not trusted")) eq_refl L eq_refl T eq_refl eq_refl).
Defined.

(** ** Start-up and [main] *)

Lemma on_toggle_result dev w :
  fst (on_toggle dev w)
  = if is_recording w then Ret tt
    else match device_error dev with Some e => Raise e | None => Ret tt end.
Proof.
  destruct (is_recording w) eqn:Hr.
  - rewrite on_toggle_recording by exact Hr. unfold bind.
    destruct (stop_recording_state (with_is_recording false w)) as (R & _).
    destruct (stop_recording (with_is_recording false w)) as [[[]|e] w'];
      [reflexivity | discriminate].
  - rewrite on_toggle_idle by exact Hr. apply start_recording_raises.
Qed.

(** While the device works, the listener handles events as [run] does. *)
Lemma hotkey_listener_join_run tempdir sched rest :
  device_always_ok sched ->
  forall w, hotkey_listener_join tempdir (List.map Sys sched ++ rest) w
            = hotkey_listener_join tempdir rest (run tempdir sched w).
Proof.
  induction 1 as [|e sched He _ IH]; intros w; [reflexivity|].
  change (run tempdir (e :: sched) w) with (run tempdir sched (step tempdir e w)).
  rewrite <- IH. destruct e as [dev|indata status|env]; try reflexivity.
  subst dev. cbn [List.map app hotkey_listener_join step].
  pose proof (on_toggle_result DevOk w) as R.
  destruct (on_toggle DevOk w) as [[[]|e] w']; [reflexivity|].
  cbn [fst device_error] in R. destruct (is_recording w); discriminate.
Qed.

Lemma hotkey_listener_join_end tempdir events :
  forall w r, fst (hotkey_listener_join tempdir events w) = Some r ->
              r = Listening \/ exists e, r = Crashed e.
Proof.
  induction events as [|[[dev|indata status|env]|] events IH]; intros w r;
    cbn [hotkey_listener_join].
  - intros [= <-]. auto.
  - destruct (on_toggle dev w) as [[[]|e] w']; [apply IH|].
    intros [= <-]. eauto.
  - apply IH.
  - apply IH.
  - discriminate.
Qed.

(** X22: the process stops at start-up, with status 1 and the error line as
    its only output, exactly when the API key is unset, empty or still the
    placeholder; no banner is printed and no event is handled then. *)
Theorem program_needs_api_key tempdir getenv events w :
  program tempdir getenv events w
  = (SysExit 1, emit (EvPrint Stderr (lit "ERROR: Set your OPENAI_API_KEY in .env")) w)
  <-> getenv = None \/ getenv = Some [] \/ getenv = Some PLACEHOLDER.
Proof.
  split.
  - unfold program. destruct getenv as [[|c k]|]; auto.
    cbn [truthy negb orb]. destruct (bool_decide_reflect (c :: k = PLACEHOLDER)) as [->|_]; auto.
    unfold main. intros H. apply (f_equal fst) in H.
    destruct (hotkey_listener_join tempdir events (banner w)) as [[r|] w'] eqn:E.
    + cbn [fst] in H. subst r.
      destruct (hotkey_listener_join_end tempdir events (banner w) (SysExit 1))
        as [?|[e ?]]; [rewrite E; reflexivity | discriminate | discriminate].
    + discriminate.
  - intros [->|[->| ->]]; reflexivity.
Qed.

(** X23: [main] catches only the keyboard interrupt: a device error at a
    start leaves [on_toggle], stops the listener and ends [main] with that
    error; what follows is never handled, and the controller is left in
    Recording. *)
Theorem main_ends_on_device_error tempdir sched dev e rest w :
  device_always_ok sched ->
  is_recording (run tempdir sched (banner w)) = false ->
  device_error dev = Some e ->
  main tempdir (List.map Sys sched ++ Sys (Toggle dev) :: rest) w
  = (Crashed e, snd (on_toggle dev (run tempdir sched (banner w))))
  /\ controller_state (snd (main tempdir (List.map Sys sched ++ Sys (Toggle dev) :: rest) w))
     = Recording.
Proof.
  intros Hok Hidle He. unfold main.
  rewrite (hotkey_listener_join_run tempdir sched _ Hok).
  cbn [hotkey_listener_join].
  pose proof (on_toggle_result dev (run tempdir sched (banner w))) as R.
  pose proof (on_toggle_flips dev (run tempdir sched (banner w))) as F.
  rewrite Hidle, He in R. rewrite Hidle in F.
  destruct (on_toggle dev (run tempdir sched (banner w))) as [[[]|x] w'];
    cbn [fst snd] in *; [discriminate|].
  injection R as ->. split; [reflexivity|].
  unfold controller_state. rewrite F. reflexivity.
Qed.

Lemma main_ends_on_device_error_witness :
  device_always_ok [Toggle DevOk; Toggle DevOk]
  /\ is_recording (run tmp [Toggle DevOk; Toggle DevOk] (banner fresh)) = false
  /\ device_error no_device = Some (PortAudioError (lit "no input device"))
  /\ fst (main tmp (List.map Sys [Toggle DevOk; Toggle DevOk]
                      ++ Sys (Toggle no_device) :: [Sys (Toggle DevOk)]) fresh)
     = Crashed (PortAudioError (lit "no input device")).
Proof.
  assert (K : device_always_ok [Toggle DevOk; Toggle DevOk])
    by (repeat constructor).
  split; [exact K|]. split; [reflexivity|]. split; [reflexivity|].
  destruct (main_ends_on_device_error tmp [Toggle DevOk; Toggle DevOk] no_device
              (PortAudioError (lit "no input device")) [Sys (Toggle DevOk)] fresh
              K eq_refl eq_refl) as [E _].
  rewrite E. reflexivity.
Defined.

(** X24: while the device works, [main] prints the banner, handles what
    happens as the running process does, and on Ctrl+C prints the farewell
    and returns; it cleans nothing up, so a recording in progress keeps its
    stream open, and what comes after Ctrl+C is not handled. *)
Theorem main_clean_exit tempdir sched rest w :
  device_always_ok sched ->
  main tempdir (List.map Sys sched ++ CtrlC :: rest) w
  = (CleanExit,
     emit (EvPrint Stdout ([0x0A]%N ++ lit "Exiting.")) (run tempdir sched (banner w)))
  /\ stream (snd (main tempdir (List.map Sys sched ++ CtrlC :: rest) w))
     = stream (run tempdir sched (banner w)).
Proof.
  intros Hok. unfold main.
  rewrite (hotkey_listener_join_run tempdir sched _ Hok).
  split; reflexivity.
Qed.

Lemma main_clean_exit_witness :
  device_always_ok [Toggle DevOk]
  /\ fst (main tmp (List.map Sys [Toggle DevOk] ++ CtrlC :: []) fresh) = CleanExit
  /\ stream (snd (main tmp (List.map Sys [Toggle DevOk] ++ CtrlC :: []) fresh))
     = Some (MkStream 16000 1 (lit "int16") true).
Proof.
  assert (K : device_always_ok [Toggle DevOk]) by (repeat constructor).
  split; [exact K|].
  destruct (main_clean_exit tmp [Toggle DevOk] [] fresh K) as [E S].
  rewrite E. split; reflexivity.
Defined.
